(** * Phoenix AID backend templates: a shallow embedding of the route handlers

    The repository holds example FastAPI servers whose handlers read an
    upload, optionally open it as an image, and return literal JSON.  The
    embedding keeps Python's values (dicts as ordered key/value lists,
    floats as IEEE 754 binary64), Python's exceptions (an error monad and
    [try]/[except]) and the part of the framework the source relies on by
    writing it: where a parameter is bound from, [response_model], and the
    CORS origin list. *)

From Stdlib Require Import ZArith List String Bool Lia.
From Stdlib Require Import Floats.
From Stdlib.Strings Require Import Byte.
Import ListNotations.

Set Warnings "-inexact-float,-register-all".

Local Open Scope string_scope.
Local Open Scope Z_scope.

(** ** Python values as the handlers build them *)

(** A JSON-serialisable Python value.  [JDict] keeps insertion order, as a
    Python dict does; [JInt] and [JFloat] are Python's [int] and [float]. *)
Inductive json : Type :=
| JNull
| JBool (b : bool)
| JInt (n : Z)
| JFloat (x : float)
| JStr (s : string)
| JList (l : list json)
| JDict (d : list (string * json)).

Definition dict : Type := list (string * json).

(** [d.get(k)] *)
Fixpoint dict_get (k : string) (d : dict) : option json :=
  match d with
  | [] => None
  | (k', v) :: d' => if String.eqb k k' then Some v else dict_get k d'
  end.

(** [d[k] = v]: overwrite in place, or append a new key at the end. *)
Fixpoint dict_set (d : dict) (k : string) (v : json) : dict :=
  match d with
  | [] => [(k, v)]
  | (k', v') :: d' =>
      if String.eqb k k' then (k', v) :: d' else (k', v') :: dict_set d' k v
  end.

(** [list(d.keys())] *)
Definition keys (d : dict) : list string := map fst d.

(** The top-level keys of a JSON object; [None] for any other value. *)
Definition top_level_keys (j : json) : option (list string) :=
  match j with
  | JDict d => Some (keys d)
  | _ => None
  end.

(** [j[k]] for a JSON object, [None] when [j] is no object or lacks [k]. *)
Definition field (k : string) (j : json) : option json :=
  match j with
  | JDict d => dict_get k d
  | _ => None
  end.

(** [len(l)] for a [bytes] value or a list *)
Definition len {A : Type} (l : list A) : Z := Z.of_nat (List.length l).

(** An [Optional[T]] value as JSON: [None] is [null]. *)
Definition json_of_option {A : Type} (f : A -> json) (o : option A) : json :=
  match o with
  | Some a => f a
  | None => JNull
  end.

(** A Python [int] as a [float], rounded to nearest as [float(n)] does. *)
Definition float_of_int (n : Z) : float :=
  SF2Prim (binary_normalize prec emax n 0 false).

(** The [int] a [float] stands for when it has no fractional part; none
    for the others, inf and nan among them. *)
Definition int_of_float (x : float) : option Z :=
  match Prim2SF x with
  | S754_zero _ => Some 0
  | S754_finite s m e =>
      let magnitude :=
        if 0 <=? e then Some (Z.pos m * 2 ^ e)
        else if Z.pos m mod 2 ^ (- e) =? 0 then Some (Z.pos m / 2 ^ (- e))
        else None in
      option_map (fun v => if s then - v else v) magnitude
  | _ => None
  end.

(** [json.dumps(content, allow_nan=False)] goes through: no float in
    [content] is inf or nan. *)
Fixpoint encodable (j : json) : bool :=
  match j with
  | JFloat x => is_finite x
  | JList l => forallb encodable l
  | JDict d => forallb (fun kv => match kv with (_, v) => encodable v end) d
  | _ => true
  end.

(** Truth value of an [Optional[float]]: [None] and zero (of either sign)
    are false, everything else, NaN included, is true. *)
Definition truthy (x : option float) : bool :=
  match x with
  | None => false
  | Some v => negb (v =? 0)%float
  end.

(** [a and b]: the left operand when it is false, else the right one. *)
Definition py_and (a b : option float) : option float :=
  if truthy a then b else a.

(** ** Exceptions *)

(** An exception deriving from [Exception]: its class name and what
    [str(e)] gives. *)
Record exn : Type := { exc_type : string; str : string }.

Inductive PyResult (A : Type) : Type :=
| Ok (a : A)
| Raise (e : exn).
Arguments Ok {A} a.
Arguments Raise {A} e.

Definition bind {A B : Type} (c : PyResult A) (k : A -> PyResult B) : PyResult B :=
  match c with
  | Ok a => k a
  | Raise e => Raise e
  end.

Notation "x <- c ;; k" := (bind c (fun x => k))
  (at level 61, c at next level, right associativity).

(** What leaves a route handler: a returned value (sent as HTTP 200 with
    that JSON), a raised [HTTPException] (sent with its status code and the
    body [{"detail": detail}]), or any other exception that nothing in the
    handler caught. *)
Inductive Outcome : Type :=
| Returned (content : json)
| HTTPException (status_code : Z) (detail : string)
| Unhandled (e : exn).

(** A handler body with no [try] around it. *)
Definition no_try (body : PyResult json) : Outcome :=
  match body with
  | Ok v => Returned v
  | Raise e => Unhandled e
  end.

(** [try: body / except Exception as e: handler e] *)
Definition try_except (body : PyResult json) (handler : exn -> Outcome) : Outcome :=
  match body with
  | Ok v => Returned v
  | Raise e => handler e
  end.

(** Status line of the HTTP response.  A returned value is encoded after
    the handler has returned, with [allow_nan=False]: one that holds inf or
    nan makes the encoder raise, outside every [try] of the handler, and
    the server answers 500. *)
Definition http_status (o : Outcome) : Z :=
  match o with
  | Returned content => if encodable content then 200 else 500
  | HTTPException status_code _ => status_code
  | Unhandled _ => 500
  end.

(** JSON body of the HTTP response; an unhandled exception, the encoder's
    included, is answered by the server's plain-text error page, which has
    none. *)
Definition response_json (o : Outcome) : option json :=
  match o with
  | Returned content => if encodable content then Some content else None
  | HTTPException _ detail => Some (JDict [("detail", JStr detail)])
  | Unhandled _ => None
  end.

(** ** The request side *)

(** The image library: [Image.open(io.BytesIO(contents))] gives an image or
    raises. *)
Class PIL : Type := {
  Image : Type;
  Image_open : list byte -> PyResult Image
}.

(** An uploaded file part: its [filename] and what [await image.read()]
    gives. *)
Record UploadFile : Type := {
  filename : option string;
  read : PyResult (list byte)
}.

(** The other fields of the multipart form sent with an upload. *)
Record UploadForm : Type := {
  form_latitude : option float;
  form_longitude : option float;
  form_timestamp : option string
}.

(** A request that passed the framework's validation, by route.  An upload
    carries its file part, its form fields and the [timestamp] of the URL
    query string; [None] stands for a parameter the client left out. *)
Inductive Request : Type :=
| GET_status
| POST_upload_image (image : UploadFile) (form : UploadForm)
    (query_timestamp : option string)
| POST_predict (image : UploadFile)
| POST_infrastructure_recommendations (wildfire_data : dict)
| GET_wildfires_nearby (lat lng : float) (radius : option float)
| GET_wildfires_active.

(** [Query(default)] on a [float] parameter: the float read from the query
    string, or, when the client left it out, the default as it is written
    (not converted to the annotated type). *)
Definition Query (default : json) (supplied : option float) : json :=
  match supplied with
  | Some v => JFloat v
  | None => default
  end.

(** [Form(None)] on a string field: the value sent; a field sent empty
    counts as left out and gives the default. *)
Definition Form (supplied : option string) : option string :=
  match supplied with
  | Some EmptyString => None
  | _ => supplied
  end.

(** ** CORS middleware *)

Record CORSMiddleware : Type := {
  allow_origins : list string;
  allow_credentials : bool;
  allow_methods : list string;
  allow_headers : list string
}.

Definition allow_all_origins (m : CORSMiddleware) : bool :=
  existsb (String.eqb "*") (allow_origins m).

(** An origin is allowed when the list holds the wildcard or the origin
    itself. *)
Definition is_allowed_origin (m : CORSMiddleware) (origin : string) : bool :=
  allow_all_origins m || existsb (String.eqb origin) (allow_origins m).

(** The [Access-Control-Allow-Origin] header of the answer to a preflight
    request from [origin]: the origin itself when it is allowed (the
    wildcard when everything is allowed and no credentials are), no header
    otherwise. *)
Definition preflight_allow_origin (m : CORSMiddleware) (origin : string) : option string :=
  if allow_all_origins m && negb (allow_credentials m) then Some "*"
  else if is_allowed_origin m origin then Some origin
  else None.

(** ** Placeholder values shared by the files *)

Definition status_json : json :=
  JDict [("status", JStr "operational");
         ("active_wildfires", JInt 0);
         ("risk_level", JStr "low");
         ("last_update", JStr "2024-01-01T00:00:00Z")].

Definition predict_json : json :=
  JDict [("risk_level", JStr "high");
         ("confidence", JFloat 0.85%float);
         ("affected_areas", JList [JStr "Area A"; JStr "Area B"]);
         ("recommendations",
          JDict [("infrastructure",
                  JList [JStr "Secure power lines in affected zone";
                         JStr "Prepare water supply systems";
                         JStr "Alert transportation department"]);
                 ("evacuation",
                  JList [JStr "Route 1: Clear"; JStr "Route 2: Monitor"])])].

Definition upload_prediction_json : json :=
  JDict [("risk_level", JStr "medium");
         ("confidence", JFloat 0.75%float);
         ("recommendations",
          JList [JStr "Monitor area for 24 hours";
                 JStr "Prepare evacuation routes";
                 JStr "Alert nearby infrastructure"])].

Definition infrastructure_json : json :=
  JDict [("recommendations",
          JList [JDict [("infrastructure_type", JStr "power_lines");
                        ("action", JStr "De-energize affected lines");
                        ("priority", JStr "high");
                        ("estimated_time", JStr "2 hours")];
                 JDict [("infrastructure_type", JStr "water_supply");
                        ("action", JStr "Increase water pressure in fire zones");
                        ("priority", JStr "high");
                        ("estimated_time", JStr "30 minutes")]]);
         ("evacuation_routes",
          JDict [("status", JStr "clear");
                 ("alternate_routes", JList [JStr "Route A"; JStr "Route B"])])].

(** ** api_server_template.py *)

Module ApiServerTemplate.

Definition cors : CORSMiddleware :=
  {| allow_origins := ["http://localhost:3000"; "http://127.0.0.1:3000"];
     allow_credentials := true;
     allow_methods := ["*"];
     allow_headers := ["*"] |}.

Definition get_status : Outcome := no_try (Ok status_json).

Section Handlers.
Context `{PIL}.

Definition upload_image_body (image : UploadFile)
    (latitude longitude : option float) (timestamp : option string) : PyResult json :=
  contents <- read image ;;
  image_pil <- Image_open contents ;;
  let prediction := upload_prediction_json in
  let response :=
    [("message", JStr "Image uploaded successfully");
     ("filename", json_of_option JStr (filename image));
     ("size", JInt (len contents));
     ("timestamp", json_of_option JStr timestamp);
     ("prediction", prediction)] in
  let response :=
    if truthy (py_and latitude longitude)
    then dict_set response "location"
           (JDict [("lat", json_of_option JFloat latitude);
                   ("lng", json_of_option JFloat longitude)])
    else response in
  Ok (JDict response).

Definition upload_image (image : UploadFile)
    (latitude longitude : option float) (timestamp : option string) : Outcome :=
  try_except (upload_image_body image latitude longitude timestamp)
    (fun e => HTTPException 500 (str e)).

Definition predict_wildfire_body (image : UploadFile) : PyResult json :=
  contents <- read image ;;
  image_pil <- Image_open contents ;;
  let prediction := predict_json in
  Ok prediction.

Definition predict_wildfire (image : UploadFile) : Outcome :=
  try_except (predict_wildfire_body image) (fun e => HTTPException 500 (str e)).

End Handlers.

Definition get_infrastructure_recommendations_body (wildfire_data : dict) : PyResult json :=
  Ok infrastructure_json.

Definition get_infrastructure_recommendations (wildfire_data : dict) : Outcome :=
  try_except (get_infrastructure_recommendations_body wildfire_data)
    (fun e => HTTPException 500 (str e)).

Definition get_wildfires_nearby_body (lat lng : float) (radius : json) : PyResult json :=
  Ok (JDict [("wildfires", JList []);
             ("total", JInt 0);
             ("radius_km", radius)]).

Definition get_wildfires_nearby (lat lng : float) (radius : json) : Outcome :=
  try_except (get_wildfires_nearby_body lat lng radius)
    (fun e => HTTPException 500 (str e)).

Definition get_all_active_wildfires_body : PyResult json :=
  Ok (JDict [("wildfires", JList []); ("total", JInt 0)]).

Definition get_all_active_wildfires : Outcome :=
  try_except get_all_active_wildfires_body (fun e => HTTPException 500 (str e)).

(** The routes of the file, each with where its parameters come from:
    [latitude], [longitude] and [timestamp] are declared [Form(None)],
    [radius] is declared [Query(50)]. *)
Definition app `{PIL} (r : Request) : option Outcome :=
  match r with
  | GET_status => Some get_status
  | POST_upload_image image form _ =>
      Some (upload_image image (form_latitude form) (form_longitude form)
              (Form (form_timestamp form)))
  | POST_predict image => Some (predict_wildfire image)
  | POST_infrastructure_recommendations wildfire_data =>
      Some (get_infrastructure_recommendations wildfire_data)
  | GET_wildfires_nearby lat lng radius =>
      Some (get_wildfires_nearby lat lng (Query (JInt 50) radius))
  | GET_wildfires_active => Some get_all_active_wildfires
  end.

End ApiServerTemplate.

(** ** backend_integration_example.py *)

Module BackendIntegrationExample.

Definition cors : CORSMiddleware :=
  {| allow_origins := ["http://localhost:3000"; "http://127.0.0.1:3000"];
     allow_credentials := true;
     allow_methods := ["*"];
     allow_headers := ["*"] |}.

Definition get_status : Outcome := no_try (Ok status_json).

(** The upload is read and never opened as an image. *)
Definition upload_image_body (image : UploadFile) (timestamp : option string) : PyResult json :=
  contents <- read image ;;
  Ok (JDict [("message", JStr "Image uploaded successfully");
             ("filename", json_of_option JStr (filename image));
             ("size", JInt (len contents));
             ("timestamp", json_of_option JStr timestamp);
             ("prediction", upload_prediction_json)]).

Definition upload_image (image : UploadFile) (timestamp : option string) : Outcome :=
  try_except (upload_image_body image timestamp) (fun e => HTTPException 500 (str e)).

Definition predict_wildfire_body (image : UploadFile) : PyResult json :=
  contents <- read image ;;
  Ok predict_json.

Definition predict_wildfire (image : UploadFile) : Outcome :=
  try_except (predict_wildfire_body image) (fun e => HTTPException 500 (str e)).

Definition get_infrastructure_recommendations_body (wildfire_data : dict) : PyResult json :=
  Ok infrastructure_json.

(** This handler has no [try]. *)
Definition get_infrastructure_recommendations (wildfire_data : dict) : Outcome :=
  no_try (get_infrastructure_recommendations_body wildfire_data).

(** The routes of the file.  [timestamp] is declared with a plain default,
    [timestamp: Optional[str] = None], which the framework binds from the
    URL query string; the form field of that name is not looked at.  The
    file has no wildfire routes. *)
Definition app (r : Request) : option Outcome :=
  match r with
  | GET_status => Some get_status
  | POST_upload_image image _ query_timestamp =>
      Some (upload_image image query_timestamp)
  | POST_predict image => Some (predict_wildfire image)
  | POST_infrastructure_recommendations wildfire_data =>
      Some (get_infrastructure_recommendations wildfire_data)
  | GET_wildfires_nearby _ _ _ => None
  | GET_wildfires_active => None
  end.

End BackendIntegrationExample.

(** ** backend_map_endpoints_example.py *)

Module BackendMapEndpointsExample.

(** *** Data models *)

Record WildfireLocation : Type := {
  id : Z;
  lat : float;
  lng : float;
  intensity : string;
  confidence : float;
  area : option string;
  detected_at : string;
  status : string;
  affected_infrastructure : option (list string)
}.

Record WildfireResponse : Type := {
  wildfires : list WildfireLocation;
  total : Z;
  radius_km : option float;
  center_lat : option float;
  center_lng : option float
}.

(** *** [response_model]: the returned dict is read into the model, then
    the model is written out with every field it declares.  Reading is
    lax between numbers (an [int] or a [bool] is taken for a [float], a
    [bool] or a [float] without fractional part for an [int]), strict for
    [str], and ignores keys the model does not declare; numeric strings,
    which no handler here returns, are not read as numbers.  Writing puts
    null for a float that is inf or nan. *)

Notation "'let?' x := c 'in' k" :=
  (match c with Some x => k | None => None end)
  (at level 10, x name, c at level 100, k at level 200).

Definition as_int (j : json) : option Z :=
  match j with
  | JInt n => Some n
  | JBool b => Some (if b then 1 else 0)
  | JFloat x => int_of_float x
  | _ => None
  end.

Definition as_float (j : json) : option float :=
  match j with
  | JFloat x => Some x
  | JInt n => Some (float_of_int n)
  | JBool b => Some (if b then 1%float else 0%float)
  | _ => None
  end.

(** A [float] of a model written as JSON. *)
Definition json_of_float (x : float) : json :=
  if is_finite x then JFloat x else JNull.

Definition as_str (j : json) : option string :=
  match j with JStr s => Some s | _ => None end.

Fixpoint all_some {A : Type} (l : list (option A)) : option (list A) :=
  match l with
  | [] => Some []
  | x :: l' =>
      let? a := x in
      let? r := all_some l' in
      Some (a :: r)
  end.

Definition as_list {A : Type} (f : json -> option A) (j : json) : option (list A) :=
  match j with JList l => all_some (map f l) | _ => None end.

(** A field without default: it has to be there. *)
Definition required {A : Type} (f : json -> option A) (v : option json) : option A :=
  let? j := v in f j.

(** An [Optional[T] = None] field: absent or [None] gives [None]. *)
Definition optional {A : Type} (f : json -> option A) (v : option json) : option (option A) :=
  match v with
  | None => Some None
  | Some JNull => Some None
  | Some j => let? a := f j in Some (Some a)
  end.

Definition WildfireLocation_validate (j : json) : option WildfireLocation :=
  match j with
  | JDict d =>
      let? v_id := required as_int (dict_get "id" d) in
      let? v_lat := required as_float (dict_get "lat" d) in
      let? v_lng := required as_float (dict_get "lng" d) in
      let? v_intensity := required as_str (dict_get "intensity" d) in
      let? v_confidence := required as_float (dict_get "confidence" d) in
      let? v_area := optional as_str (dict_get "area" d) in
      let? v_detected_at := required as_str (dict_get "detected_at" d) in
      let? v_status := required as_str (dict_get "status" d) in
      let? v_infra := optional (as_list as_str) (dict_get "affected_infrastructure" d) in
      Some {| id := v_id; lat := v_lat; lng := v_lng; intensity := v_intensity;
              confidence := v_confidence; area := v_area;
              detected_at := v_detected_at; status := v_status;
              affected_infrastructure := v_infra |}
  | _ => None
  end.

Definition WildfireResponse_validate (j : json) : option WildfireResponse :=
  match j with
  | JDict d =>
      let? v_wildfires := required (as_list WildfireLocation_validate) (dict_get "wildfires" d) in
      let? v_total := required as_int (dict_get "total" d) in
      let? v_radius_km := optional as_float (dict_get "radius_km" d) in
      let? v_center_lat := optional as_float (dict_get "center_lat" d) in
      let? v_center_lng := optional as_float (dict_get "center_lng" d) in
      Some {| wildfires := v_wildfires; total := v_total; radius_km := v_radius_km;
              center_lat := v_center_lat; center_lng := v_center_lng |}
  | _ => None
  end.

Definition WildfireLocation_dump (w : WildfireLocation) : json :=
  JDict [("id", JInt (id w));
         ("lat", json_of_float (lat w));
         ("lng", json_of_float (lng w));
         ("intensity", JStr (intensity w));
         ("confidence", json_of_float (confidence w));
         ("area", json_of_option JStr (area w));
         ("detected_at", JStr (detected_at w));
         ("status", JStr (status w));
         ("affected_infrastructure",
          json_of_option (fun l => JList (map JStr l)) (affected_infrastructure w))].

Definition WildfireResponse_dump (r : WildfireResponse) : json :=
  JDict [("wildfires", JList (map WildfireLocation_dump (wildfires r)));
         ("total", JInt (total r));
         ("radius_km", json_of_option json_of_float (radius_km r));
         ("center_lat", json_of_option json_of_float (center_lat r));
         ("center_lng", json_of_option json_of_float (center_lng r))].

Definition ResponseValidationError : exn :=
  {| exc_type := "ResponseValidationError"; str := "response validation failed" |}.

(** [@app.get(..., response_model=WildfireResponse)] around a handler. *)
Definition response_model (o : Outcome) : Outcome :=
  match o with
  | Returned content =>
      match WildfireResponse_validate content with
      | Some r => Returned (WildfireResponse_dump r)
      | None => Unhandled ResponseValidationError
      end
  | _ => o
  end.

(** *** API endpoints *)

Definition get_wildfires_nearby_body (lat lng : float) (radius : json) : PyResult json :=
  let wildfires :=
    [JDict [("id", JInt 1);
            ("lat", JFloat (lat + 0.05)%float);
            ("lng", JFloat (lng + 0.05)%float);
            ("intensity", JStr "high");
            ("confidence", JFloat 0.85%float);
            ("area", JStr "North Region");
            ("detected_at", JStr "2024-01-01T12:00:00Z");
            ("status", JStr "active");
            ("affected_infrastructure",
             JList [JStr "power_lines"; JStr "water_supply"])];
     JDict [("id", JInt 2);
            ("lat", JFloat (lat - 0.03)%float);
            ("lng", JFloat (lng + 0.08)%float);
            ("intensity", JStr "medium");
            ("confidence", JFloat 0.72%float);
            ("area", JStr "East Region");
            ("detected_at", JStr "2024-01-01T11:30:00Z");
            ("status", JStr "active");
            ("affected_infrastructure", JList [JStr "transportation"])]] in
  Ok (JDict [("wildfires", JList wildfires);
             ("total", JInt (len wildfires));
             ("radius_km", radius);
             ("center_lat", JFloat lat);
             ("center_lng", JFloat lng)]).

Definition get_wildfires_nearby (lat lng : float) (radius : json) : Outcome :=
  try_except (get_wildfires_nearby_body lat lng radius)
    (fun e => HTTPException 500 (str e)).

Definition get_all_active_wildfires_body : PyResult json :=
  let wildfires :=
    [JDict [("id", JInt 1);
            ("lat", JFloat 37.7749%float);
            ("lng", JFloat (-122.4194)%float);
            ("intensity", JStr "high");
            ("confidence", JFloat 0.85%float);
            ("area", JStr "San Francisco Bay Area");
            ("detected_at", JStr "2024-01-01T12:00:00Z");
            ("status", JStr "active")]] in
  Ok (JDict [("wildfires", JList wildfires);
             ("total", JInt (len wildfires))]).

Definition get_all_active_wildfires : Outcome :=
  try_except get_all_active_wildfires_body (fun e => HTTPException 500 (str e)).

Section Handlers.
Context `{PIL}.

Definition upload_image_with_location_body (image : UploadFile)
    (latitude longitude : option float) (timestamp : option string) : PyResult json :=
  contents <- read image ;;
  image_pil <- Image_open contents ;;
  Ok (JDict [("message", JStr "Image uploaded successfully");
             ("filename", json_of_option JStr (filename image));
             ("location",
              if truthy (py_and latitude longitude)
              then JDict [("lat", json_of_option JFloat latitude);
                          ("lng", json_of_option JFloat longitude)]
              else JNull);
             ("prediction",
              JDict [("risk_level", JStr "medium");
                     ("confidence", JFloat 0.75%float)])]).

Definition upload_image_with_location (image : UploadFile)
    (latitude longitude : option float) (timestamp : option string) : Outcome :=
  try_except (upload_image_with_location_body image latitude longitude timestamp)
    (fun e => HTTPException 500 (str e)).

End Handlers.

(** The routes of the file: the two wildfire queries go through
    [response_model], the upload takes its three optional fields from the
    form. *)
Definition app `{PIL} (r : Request) : option Outcome :=
  match r with
  | GET_wildfires_nearby lat lng radius =>
      Some (response_model (get_wildfires_nearby lat lng (Query (JInt 50) radius)))
  | GET_wildfires_active => Some (response_model get_all_active_wildfires)
  | POST_upload_image image form _ =>
      Some (upload_image_with_location image (form_latitude form)
              (form_longitude form) (Form (form_timestamp form)))
  | GET_status => None
  | POST_predict _ => None
  | POST_infrastructure_recommendations _ => None
  end.

End BackendMapEndpointsExample.

(** ** integration_examples.py *)

Module IntegrationExamples.

Definition cors : CORSMiddleware :=
  {| allow_origins := ["http://localhost:3000"];
     allow_credentials := true;
     allow_methods := ["*"];
     allow_headers := ["*"] |}.

Section Handlers.
Context `{PIL}.

(** Example 5: the upload is read and opened, the rest is commented out and
    the function ends in [pass], so it returns [None].  No [try]. *)
Definition predict_wildfire_5 (image : UploadFile) : Outcome :=
  no_try (contents <- read image ;;
          image_pil <- Image_open contents ;;
          Ok JNull).

(** Example 6: image upload with processing.  No [try]. *)
Definition upload_image_6 (image : UploadFile) (timestamp : option string) : Outcome :=
  no_try (contents <- read image ;;
          image_pil <- Image_open contents ;;
          Ok (JDict [("message", JStr "Image uploaded successfully");
                     ("filename", json_of_option JStr (filename image));
                     ("size", JInt (len contents));
                     ("timestamp", json_of_option JStr timestamp);
                     ("prediction",
                      JDict [("risk_level", JStr "medium");
                             ("confidence", JFloat 0.75%float);
                             ("recommendations",
                              JList [JStr "Monitor area for 24 hours";
                                     JStr "Prepare evacuation routes"])])])).

End Handlers.

(** *** Example 7: error handling *)

(** What Example 7 uses of an opened image besides opening it:
    [image_pil.verify()] and [image_pil.size], a (width, height) pair. *)
Class PILImage {pil : PIL} : Type := {
  verify : Image -> PyResult unit;
  size : Image -> Z * Z
}.

(** The model the examples call, [your_ml_model.predict(image_pil)] or
    [model.predict]; a model that is not there is one whose call raises. *)
Class MLModel {pil : PIL} : Type := {
  predict : Image -> PyResult json
}.

(** A step of a body that raises [HTTPException] itself, next to the
    exceptions that come out of the libraries it calls. *)
Inductive Flow (A : Type) : Type :=
| Go (a : A)
| RaiseHTTP (status_code : Z) (detail : string)
| RaiseOther (e : exn).
Arguments Go {A} a.
Arguments RaiseHTTP {A} status_code detail.
Arguments RaiseOther {A} e.

Definition flow_bind {A B : Type} (c : Flow A) (k : A -> Flow B) : Flow B :=
  match c with
  | Go a => k a
  | RaiseHTTP status_code detail => RaiseHTTP status_code detail
  | RaiseOther e => RaiseOther e
  end.

Notation "x <~ c ;; k" := (flow_bind c (fun x => k))
  (at level 61, c at next level, right associativity).

(** A library call outside any inner [try]; the libraries called (the
    upload's read, the image library, the model) raise exceptions of their
    own, no [HTTPException]. *)
Definition call {A : Type} (c : PyResult A) : Flow A :=
  match c with
  | Ok a => Go a
  | Raise e => RaiseOther e
  end.

(** [if cond: raise HTTPException(status_code, detail)] *)
Definition raise_if (cond : bool) (status_code : Z) (detail : string) : Flow unit :=
  if cond then RaiseHTTP status_code detail else Go tt.

(** [try: block / except Exception as e: raise HTTPException(status_code,
    detail e)] *)
Definition try_reraise {A : Type} (block : PyResult A) (status_code : Z)
    (detail : exn -> string) : Flow A :=
  match block with
  | Ok a => Go a
  | Raise e => RaiseHTTP status_code (detail e)
  end.

(** The outer [try] of Example 7: [except HTTPException: raise], then
    [except Exception as e: raise HTTPException(500, f"Server error: ...")]. *)
Definition reraise_http_else_500 (body : Flow json) : Outcome :=
  match body with
  | Go v => Returned v
  | RaiseHTTP status_code detail => HTTPException status_code detail
  | RaiseOther e => HTTPException 500 ("Server error: " ++ str e)
  end.

(** Truth value of an [Optional[str]]: [None] and the empty string are
    false. *)
Definition truthy_str (x : option string) : bool :=
  match x with
  | None => false
  | Some s => negb (String.eqb s "")
  end.

Section Example7.
Context {pil : PIL} {tools : PILImage} {your_ml_model : MLModel}.

Definition predict_wildfire_7_body (image : UploadFile) : Flow json :=
  _ <~ raise_if (negb (truthy_str (filename image))) 400 "No filename provided" ;;
  contents <~ call (read image) ;;
  _ <~ raise_if (len contents =? 0) 400 "Empty image file" ;;
  _ <~ try_reraise (image_pil <- Image_open contents ;; verify image_pil)
         400 (fun _ => "Invalid image format") ;;
  image_pil <~ call (Image_open contents) ;;
  _ <~ raise_if ((fst (size image_pil) <? 100) || (snd (size image_pil) <? 100))
         400 "Image too small" ;;
  prediction <~ try_reraise (predict image_pil)
                  500 (fun ml_error => "ML model error: " ++ str ml_error) ;;
  Go prediction.

Definition predict_wildfire_7 (image : UploadFile) : Outcome :=
  reraise_http_else_500 (predict_wildfire_7_body image).

End Example7.

(** *** Example 8: the model is loaded once *)

(** What the process keeps between requests: the one-entry cache that
    [lru_cache] puts around [load_model], and what was printed. *)
Record Process {pil : PIL} : Type := {
  load_model_cache : option (Image -> PyResult json);
  stdout : list string
}.

Section Example8.
Context {pil : PIL} {model : MLModel}.

Definition print (line : string) (p : Process) : Process :=
  {| load_model_cache := load_model_cache p; stdout := stdout p ++ [line] |}.

(** [@lru_cache(maxsize=1) def load_model()]: a cached result is returned
    as it is; otherwise the body runs and its result is cached. *)
Definition load_model (p : Process) : (Image -> PyResult json) * Process :=
  match load_model_cache p with
  | Some cached => (cached, p)
  | None =>
      let p := print "Loading model..." p in
      let p := print "Model loaded!" p in
      (predict, {| load_model_cache := Some predict; stdout := stdout p |})
  end.

Definition startup_event (p : Process) : Process := snd (load_model p).

Definition predict_wildfire_8 (image : UploadFile) (p : Process) : Outcome * Process :=
  let (model, p) := load_model p in
  (no_try (contents <- read image ;;
           image_pil <- Image_open contents ;;
           model image_pil),
   p).

(** The requests of a run, served one after the other. *)
Fixpoint serve (images : list UploadFile) (p : Process) : list Outcome * Process :=
  match images with
  | [] => ([], p)
  | image :: images' =>
      let (o, p) := predict_wildfire_8 image p in
      let (os, p) := serve images' p in
      (o :: os, p)
  end.

(** A process that has just started: nothing cached, nothing printed. *)
Definition fresh : Process := {| load_model_cache := None; stdout := [] |}.

End Example8.

(** *** Example 9: the Flask version *)

(** [request.files]: the file parts of the request, by field name. *)
Fixpoint files_get (k : string) (files : list (string * UploadFile)) : option UploadFile :=
  match files with
  | [] => None
  | (k', f) :: files' => if String.eqb k k' then Some f else files_get k files'
  end.

(** The handler returns a body and a status, [jsonify(...)] alone being a
    200; ['image' not in request.files] is the lookup that finds nothing. *)
Definition predict_wildfire_9 {pil : PIL} (files : list (string * UploadFile)) : PyResult (json * Z) :=
  match files_get "image" files with
  | None => Ok (JDict [("error", JStr "No image file")], 400)
  | Some file =>
      contents <- read file ;;
      image_pil <- Image_open contents ;;
      Ok (JDict [("risk_level", JStr "high"); ("confidence", JFloat 0.85%float)], 200)
  end.

End IntegrationExamples.

(** ** The documented contract

    The field lists of the interface table, by route; for an upload these
    are the fields that are always there, [location] being optional. *)

Definition documented_keys (r : Request) : list string :=
  match r with
  | GET_status => ["status"; "active_wildfires"; "risk_level"; "last_update"]
  | POST_upload_image _ _ _ =>
      ["message"; "filename"; "size"; "timestamp"; "prediction"]
  | POST_predict _ =>
      ["risk_level"; "confidence"; "affected_areas"; "recommendations"]
  | POST_infrastructure_recommendations _ => ["recommendations"; "evacuation_routes"]
  | GET_wildfires_nearby _ _ _ =>
      ["wildfires"; "total"; "radius_km"; "center_lat"; "center_lng"]
  | GET_wildfires_active => ["wildfires"; "total"]
  end.

(** The value a route returned, when it returned one. *)
Definition returned (o : option Outcome) : option json :=
  match o with
  | Some (Returned content) => Some content
  | _ => None
  end.

(** The top-level keys of the JSON a route returned. *)
Definition response_keys (o : option Outcome) : option (list string) :=
  match returned o with
  | Some content => top_level_keys content
  | None => None
  end.

(** The route answered 200 with the JSON value [content]. *)
Definition answered_200 (o : option Outcome) (content : json) : Prop :=
  option_map http_status o = Some 200
  /\ option_map response_json o = Some (Some content).

(** [total] equals the length of [wildfires] in a wildfire query response. *)
Definition total_is_length (content : json) : bool :=
  match field "wildfires" content, field "total" content with
  | Some (JList l), Some (JInt n) => (n =? len l)%Z
  | _, _ => false
  end.

(** An exception raised by reading the upload or by opening what was read. *)
Definition raised_by_read_or_open `{PIL} (image : UploadFile) (e : exn) : Prop :=
  read image = Raise e \/
  exists contents, read image = Ok contents /\ Image_open contents = Raise e.

(** ** A decoder and uploads to run the handlers on *)

Definition png_signature : list byte := [x89; x50; x4e; x47; x0d; x0a; x1a; x0a].

Fixpoint starts_with (prefix l : list byte) : bool :=
  match prefix, l with
  | [], _ => true
  | _ :: _, [] => false
  | a :: prefix', b :: l' => Byte.eqb a b && starts_with prefix' l'
  end.

Definition UnidentifiedImageError : exn :=
  {| exc_type := "UnidentifiedImageError"; str := "cannot identify image file" |}.

(** What [Image.open] raises on a stream it cannot identify as an image:
    an [UnidentifiedImageError] whose message names the file object,
    [fp] being its [repr]. *)
Definition cannot_identify (fp : string) : exn :=
  {| exc_type := "UnidentifiedImageError";
     str := "cannot identify image file " ++ fp |}.

(** A decoder that accepts the streams starting with the PNG signature. *)
Definition png_only : PIL :=
  {| Image := list byte;
     Image_open := fun contents =>
       if starts_with png_signature contents then Ok contents
       else Raise UnidentifiedImageError |}.

(** The same decoder, raising with the message of the image library. *)
Definition png_or_cannot_identify : PIL :=
  {| Image := list byte;
     Image_open := fun contents =>
       if starts_with png_signature contents then Ok contents
       else Raise (cannot_identify "<_io.BytesIO object at 0x7f3a5c1d2e50>") |}.

(** A PNG file of one grey pixel, 67 bytes: signature, IHDR, IDAT, IEND. *)
Definition one_pixel_png : list byte :=
  [x89; x50; x4e; x47; x0d; x0a; x1a; x0a;
   x00; x00; x00; x0d; x49; x48; x44; x52;
   x00; x00; x00; x01; x00; x00; x00; x01; x08; x00; x00; x00; x00;
   x3a; x7e; x9b; x55;
   x00; x00; x00; x0a; x49; x44; x41; x54;
   x78; xda; x63; x68; x00; x00; x00; x82; x00; x81;
   xda; x45; x08; x3b;
   x00; x00; x00; x00; x49; x45; x4e; x44; xae; x42; x60; x82].

Definition one_pixel_upload : UploadFile :=
  {| filename := Some "pixel.png"; read := Ok one_pixel_png |}.

(** What api_server_template.py returns for that upload sent from Ottawa
    with a timestamp. *)
Definition one_pixel_response : json :=
  JDict [("message", JStr "Image uploaded successfully");
         ("filename", JStr "pixel.png");
         ("size", JInt 67);
         ("timestamp", JStr "2024-06-01T10:00:00Z");
         ("prediction", upload_prediction_json);
         ("location",
          JDict [("lat", JFloat 45.42%float); ("lng", JFloat (-75.69)%float)])].

Definition text_upload : UploadFile :=
  {| filename := Some "notes.txt";
     read := Ok (list_byte_of_string "not an image") |}.

Definition png_upload : UploadFile :=
  {| filename := Some "fire.png"; read := Ok (png_signature ++ [x00; x01])%list |}.

Definition other_png_upload : UploadFile :=
  {| filename := Some "smoke.png"; read := Ok (png_signature ++ [xff])%list |}.

Definition no_form : UploadForm :=
  {| form_latitude := None; form_longitude := None; form_timestamp := None |}.


Definition ottawa_form : UploadForm :=
  {| form_latitude := Some 45.42%float;
     form_longitude := Some (-75.69)%float;
     form_timestamp := Some "2024-06-01T10:00:00Z" |}.

(** ** Comparing the servers *)




(** The details of the 400 answers of Example 7. *)
Definition example7_client_errors : list string :=
  ["No filename provided"; "Empty image file"; "Invalid image format";
   "Image too small"].

(** ** Image tools, models and uploads to run the examples on *)

Definition SyntaxError : exn :=
  {| exc_type := "SyntaxError"; str := "broken PNG file" |}.

(** Tools for [png_only]: a stream shorter than ten bytes does not verify;
    width and height grow with the number of bytes after the signature. *)
Definition png_tools : @IntegrationExamples.PILImage png_only :=
  {| IntegrationExamples.verify := fun image_pil : @Image png_only =>
       if len (image_pil : list byte) <? 10 then Raise SyntaxError else Ok tt;
     IntegrationExamples.size := fun image_pil : @Image png_only =>
       (64 * (len (image_pil : list byte) - 8),
        48 * (len (image_pil : list byte) - 8)) |}.

(** A model that answers every image with the placeholder prediction. *)
Definition placeholder_model : @IntegrationExamples.MLModel png_only :=
  {| IntegrationExamples.predict := fun _ => Ok predict_json |}.

(** The model of the file as it stands: the name [your_ml_model] is bound
    nowhere, so the call raises. *)
Definition undefined_model : @IntegrationExamples.MLModel png_only :=
  {| IntegrationExamples.predict := fun _ =>
       Raise {| exc_type := "NameError";
                str := "name 'your_ml_model' is not defined" |} |}.

Definition large_png_upload : UploadFile :=
  {| filename := Some "forest.png";
     read := Ok (png_signature ++ [x00; x01; x02; x03])%list |}.

Definition unnamed_upload : UploadFile :=
  {| filename := None; read := Ok (png_signature ++ [x00; x01; x02; x03])%list |}.

Definition empty_upload : UploadFile :=
  {| filename := Some "empty.png"; read := Ok [] |}.

Definition failing_upload : UploadFile :=
  {| filename := Some "fire.png";
     read := Raise {| exc_type := "OSError"; str := "read failed" |} |}.

(** * Properties *)

(** ** Running a handler *)

Lemma bind_Ok {A B : Type} (a : A) (k : A -> PyResult B) : bind (Ok a) k = k a.
Proof. reflexivity. Qed.

Lemma bind_Raise {A B : Type} (e : exn) (k : A -> PyResult B) : bind (Raise e) k = Raise e.
Proof. reflexivity. Qed.

Lemma try_except_Raise (body : PyResult json) (e : exn) :
  body = Raise e ->
  try_except body (fun e => HTTPException 500 (str e)) = HTTPException 500 (str e).
Proof. intros ->. reflexivity. Qed.

Lemma try_except_Ok (body : PyResult json) (handler : exn -> Outcome) (v : json) :
  body = Ok v -> try_except body handler = Returned v.
Proof. intros ->. reflexivity. Qed.

Lemma try_except_not_Unhandled (body : PyResult json) (e : exn) :
  try_except body (fun e => HTTPException 500 (str e)) <> Unhandled e.
Proof. destruct body; discriminate. Qed.

(** Unfold the handlers of the three servers down to the reads and opens. *)
Ltac unfold_handlers :=
  unfold ApiServerTemplate.upload_image, ApiServerTemplate.upload_image_body,
    ApiServerTemplate.predict_wildfire, ApiServerTemplate.predict_wildfire_body,
    BackendIntegrationExample.upload_image, BackendIntegrationExample.upload_image_body,
    BackendIntegrationExample.predict_wildfire,
    BackendIntegrationExample.predict_wildfire_body,
    BackendMapEndpointsExample.upload_image_with_location,
    BackendMapEndpointsExample.upload_image_with_location_body in *.

(** Replace a read or an open by its known result and run on. *)
Ltac step_with Hread :=
  rewrite Hread; rewrite ?bind_Ok, ?bind_Raise; cbv beta.

Section ErrorHandling.
Context `{PIL}.

Lemma raised_gives_Raise {A : Type} (image : UploadFile) (e : exn)
    (k : list byte -> Image -> PyResult A) :
  raised_by_read_or_open image e ->
  (contents <- read image ;; image_pil <- Image_open contents ;; k contents image_pil)
  = Raise e.
Proof.
  intros [Hread | (contents & Hread & Hopen)].
  - now rewrite Hread.
  - rewrite Hread, bind_Ok, Hopen. reflexivity.
Qed.

Lemma map_nearby_validates (lat lng : float) (radius : option float) :
  exists content,
    BackendMapEndpointsExample.response_model
      (BackendMapEndpointsExample.get_wildfires_nearby lat lng (Query (JInt 50) radius))
    = Returned content.
Proof. destruct radius; eexists; reflexivity. Qed.

Lemma map_active_validates :
  exists content,
    BackendMapEndpointsExample.response_model
      BackendMapEndpointsExample.get_all_active_wildfires
    = Returned content.
Proof. eexists. reflexivity. Qed.

Lemma template_app_not_Unhandled (r : Request) (o : Outcome) (e : exn) :
  ApiServerTemplate.app r = Some o -> o <> Unhandled e.
Proof.
  destruct r; cbn [ApiServerTemplate.app]; intros [= <-];
    solve [ apply try_except_not_Unhandled | discriminate ].
Qed.

Lemma backend_app_not_Unhandled (r : Request) (o : Outcome) (e : exn) :
  BackendIntegrationExample.app r = Some o -> o <> Unhandled e.
Proof.
  destruct r; cbn [BackendIntegrationExample.app]; intros [= <-];
    solve [ apply try_except_not_Unhandled | discriminate ].
Qed.

Lemma map_app_not_Unhandled (r : Request) (o : Outcome) (e : exn) :
  BackendMapEndpointsExample.app r = Some o -> o <> Unhandled e.
Proof.
  destruct r; cbn [BackendMapEndpointsExample.app]; try discriminate.
  - intros [= <-]. apply try_except_not_Unhandled.
  - destruct (map_nearby_validates lat lng radius) as [content ->].
    intros [= <-]. discriminate.
  - destruct map_active_validates as [content ->].
    intros [= <-]. discriminate.
Qed.

(** C1 (as amended): in api_server_template.py, backend_integration_example.py
    and backend_map_endpoints_example.py no route lets an exception out, and
    an exception raised while the upload is read or, where the handler opens
    it, while it is decoded, becomes an HTTP 500 whose detail is exactly
    [str(e)]. *)
Theorem three_servers_turn_exceptions_into_500 :
  (forall r o e,
      ApiServerTemplate.app r = Some o \/
      BackendIntegrationExample.app r = Some o \/
      BackendMapEndpointsExample.app r = Some o ->
      o <> Unhandled e)
  /\ (forall image latitude longitude timestamp e,
        raised_by_read_or_open image e ->
        ApiServerTemplate.upload_image image latitude longitude timestamp
          = HTTPException 500 (str e)
        /\ ApiServerTemplate.predict_wildfire image = HTTPException 500 (str e)
        /\ BackendMapEndpointsExample.upload_image_with_location
             image latitude longitude timestamp
           = HTTPException 500 (str e))
  /\ (forall image timestamp e,
        read image = Raise e ->
        BackendIntegrationExample.upload_image image timestamp
          = HTTPException 500 (str e)
        /\ BackendIntegrationExample.predict_wildfire image
           = HTTPException 500 (str e)).
Proof.
  split; [| split].
  - intros r o e [Hr | [Hr | Hr]].
    + eapply template_app_not_Unhandled; eassumption.
    + eapply backend_app_not_Unhandled; eassumption.
    + eapply map_app_not_Unhandled; eassumption.
  - intros image latitude longitude timestamp e Hraised.
    unfold_handlers.
    repeat split; apply try_except_Raise; now apply raised_gives_Raise.
  - intros image timestamp e Hread.
    unfold_handlers.
    split; apply try_except_Raise; now rewrite Hread.
Qed.

End ErrorHandling.

(** C1, the witness: an upload that is no image, sent to the three servers. *)
Lemma three_servers_turn_exceptions_into_500_witness :
  @ApiServerTemplate.upload_image png_only text_upload None None None
    = HTTPException 500 "cannot identify image file"
  /\ @ApiServerTemplate.predict_wildfire png_only text_upload
     = HTTPException 500 "cannot identify image file"
  /\ @BackendMapEndpointsExample.upload_image_with_location png_only
       text_upload None None None
     = HTTPException 500 "cannot identify image file".
Proof.
  apply (proj1 (proj2 (@three_servers_turn_exceptions_into_500 png_only))
           text_upload None None None UnidentifiedImageError).
  right. exists (list_byte_of_string "not an image"). split; reflexivity.
Defined.

(** C1 (as stated), refuted: the Example 5 handler of integration_examples.py
    has no [try]; the exception raised by opening an upload that is no image
    leaves the handler instead of becoming an HTTP error with a detail. *)
Lemma integration_example_5_lets_exception_out :
  @Image_open png_only (list_byte_of_string "not an image")
    = Raise UnidentifiedImageError
  /\ @IntegrationExamples.predict_wildfire_5 png_only text_upload
     = Unhandled UnidentifiedImageError
  /\ response_json (@IntegrationExamples.predict_wildfire_5 png_only text_upload)
     = None.
Proof. repeat split. Qed.

(** ** Uploads that cannot be decoded *)

Section Undecodable.
Context `{PIL}.

(** C2 (as amended): where the handler opens the upload as an image
    (api_server_template.py's upload and predict handlers, the upload
    handler of the map example), a stream that was read and that the image
    library cannot identify gives HTTP 500 with a non-empty detail, the
    message "cannot identify image file ..." of the exception raised; the
    two upload handlers of backend_integration_example.py never open the
    upload and answer 200. *)
Theorem undecodable_upload_is_500_where_it_is_opened
    (image : UploadFile) (contents : list byte) (fp : string)
    (latitude longitude : option float) (timestamp : option string) :
  read image = Ok contents ->
  Image_open contents = Raise (cannot_identify fp) ->
  (forall o,
      o = ApiServerTemplate.upload_image image latitude longitude timestamp \/
      o = ApiServerTemplate.predict_wildfire image \/
      o = BackendMapEndpointsExample.upload_image_with_location
            image latitude longitude timestamp ->
      http_status o = 500
      /\ exists detail,
           response_json o = Some (JDict [("detail", JStr detail)])
           /\ detail = "cannot identify image file " ++ fp
           /\ detail <> "")
  /\ http_status (BackendIntegrationExample.upload_image image timestamp) = 200
  /\ http_status (BackendIntegrationExample.predict_wildfire image) = 200.
Proof.
  intros Hread Hopen.
  assert (Hraised : raised_by_read_or_open image (cannot_identify fp))
    by (right; exists contents; now split).
  split; [| split].
  - intros o Ho.
    assert (Heq : o = HTTPException 500 (str (cannot_identify fp))).
    { destruct Ho as [-> | [-> | ->]]; unfold_handlers;
        apply try_except_Raise; now apply raised_gives_Raise. }
    subst o. split; [reflexivity |].
    exists ("cannot identify image file " ++ fp). repeat split. discriminate.
  - unfold_handlers. rewrite Hread.
    destruct (filename image), timestamp; reflexivity.
  - unfold_handlers. now rewrite Hread.
Qed.

End Undecodable.

(** C2, the witness: a text file sent as the image. *)
Lemma undecodable_upload_is_500_where_it_is_opened_witness :
  http_status (@ApiServerTemplate.predict_wildfire png_or_cannot_identify text_upload)
  = 500
  /\ (exists detail,
        response_json
          (@ApiServerTemplate.predict_wildfire png_or_cannot_identify text_upload)
        = Some (JDict [("detail", JStr detail)])
        /\ detail = "cannot identify image file <_io.BytesIO object at 0x7f3a5c1d2e50>"
        /\ detail <> "")
  /\ http_status (BackendIntegrationExample.predict_wildfire text_upload) = 200.
Proof.
  pose proof (@undecodable_upload_is_500_where_it_is_opened png_or_cannot_identify
                text_upload (list_byte_of_string "not an image")
                "<_io.BytesIO object at 0x7f3a5c1d2e50>" None None None
                eq_refl eq_refl)
    as [Hopened [_ Hpredict]].
  destruct (Hopened (@ApiServerTemplate.predict_wildfire png_or_cannot_identify
                       text_upload))
    as [Hstatus Hdetail].
  - right. left. reflexivity.
  - repeat split; assumption.
Defined.

(** C2 (as stated), refuted: backend_integration_example.py's upload handler
    answers 200 to a stream that the decoder rejects. *)
Lemma backend_integration_upload_accepts_undecodable :
  @Image_open png_only (list_byte_of_string "not an image")
    = Raise UnidentifiedImageError
  /\ BackendIntegrationExample.app (POST_upload_image text_upload no_form None)
     = Some (Returned
               (JDict [("message", JStr "Image uploaded successfully");
                       ("filename", JStr "notes.txt");
                       ("size", JInt 12);
                       ("timestamp", JNull);
                       ("prediction", upload_prediction_json)]))
  /\ http_status (BackendIntegrationExample.upload_image text_upload None) = 200.
Proof. repeat split. Qed.

(** ** Top-level keys *)

Lemma truthy_py_and (a b : option float) :
  truthy (py_and a b) = truthy a && truthy b.
Proof.
  unfold py_and. destruct (truthy a) eqn:Ha; simpl.
  - reflexivity.
  - exact Ha.
Qed.

Section Keys.
Context `{PIL}.

(** C3 (as amended): a returned response has exactly the documented
    top-level keys for every route of backend_integration_example.py, for
    the nearby query of the map example, and for every route of
    api_server_template.py but its nearby query, whose response has exactly
    wildfires, total and radius_km; an upload to api_server_template.py adds
    location when both coordinates are truthy.  In the map example the
    active query has the five keys of the response model and the upload has
    message, filename, location and prediction. *)
Theorem top_level_keys_of_the_servers (r : Request) (content : json) :
  (ApiServerTemplate.app r = Some (Returned content) ->
   top_level_keys content =
   Some match r with
        | GET_wildfires_nearby _ _ _ => ["wildfires"; "total"; "radius_km"]
        | POST_upload_image _ form _ =>
            (documented_keys r ++
             if truthy (form_latitude form) && truthy (form_longitude form)
             then ["location"] else [])%list
        | _ => documented_keys r
        end)
  /\ (BackendIntegrationExample.app r = Some (Returned content) ->
      top_level_keys content = Some (documented_keys r))
  /\ (BackendMapEndpointsExample.app r = Some (Returned content) ->
      top_level_keys content =
      Some match r with
           | POST_upload_image _ _ _ =>
               ["message"; "filename"; "location"; "prediction"]
           | GET_wildfires_active =>
               ["wildfires"; "total"; "radius_km"; "center_lat"; "center_lng"]
           | _ => documented_keys r
           end).
Proof.
  split; [| split].
  - destruct r; cbn [ApiServerTemplate.app]; try (intros [= <-]; reflexivity).
    + unfold_handlers.
      destruct (read image) as [contents |]; [| discriminate].
      rewrite bind_Ok.
      destruct (Image_open contents); [| discriminate].
      rewrite bind_Ok, truthy_py_and.
      destruct (truthy (form_latitude form) && truthy (form_longitude form));
        intros [= <-]; reflexivity.
    + unfold_handlers.
      destruct (read image) as [contents |]; [| discriminate].
      rewrite bind_Ok.
      destruct (Image_open contents); [| discriminate].
      intros [= <-]; reflexivity.
  - destruct r; cbn [BackendIntegrationExample.app];
      try discriminate; try (intros [= <-]; reflexivity).
    + unfold_handlers.
      destruct (read image) as [contents |]; [| discriminate].
      intros [= <-]; reflexivity.
    + unfold_handlers.
      destruct (read image) as [contents |]; [| discriminate].
      intros [= <-]; reflexivity.
  - destruct r; cbn [BackendMapEndpointsExample.app];
      try discriminate; try (intros [= <-]; reflexivity);
      try (destruct radius; intros [= <-]; reflexivity).
    unfold_handlers.
    destruct (read image) as [contents |]; [| discriminate].
    rewrite bind_Ok.
    destruct (Image_open contents); [| discriminate].
    intros [= <-]; reflexivity.
Qed.

End Keys.

(** C3, the witness: the nearby query of the map example. *)
Lemma top_level_keys_of_the_servers_witness :
  exists content,
    @BackendMapEndpointsExample.app png_only
      (GET_wildfires_nearby 45.42%float (-75.69)%float (Some 10%float))
    = Some (Returned content)
    /\ top_level_keys content
       = Some ["wildfires"; "total"; "radius_km"; "center_lat"; "center_lng"].
Proof.
  eexists. split.
  - reflexivity.
  - apply (proj2 (proj2 (@top_level_keys_of_the_servers png_only
             (GET_wildfires_nearby 45.42%float (-75.69)%float (Some 10%float)) _))).
    reflexivity.
Defined.

(** C3 (as stated), refuted: the nearby query of api_server_template.py
    answers with three keys, center_lat and center_lng are not among them. *)
Lemma template_nearby_has_three_keys :
  response_keys (@ApiServerTemplate.app png_only
                   (GET_wildfires_nearby 45.42%float (-75.69)%float (Some 10%float)))
  = Some ["wildfires"; "total"; "radius_km"]
  /\ documented_keys (GET_wildfires_nearby 45.42%float (-75.69)%float (Some 10%float))
     = ["wildfires"; "total"; "radius_km"; "center_lat"; "center_lng"].
Proof. split; reflexivity. Qed.

(** ** The wildfire queries *)


#[local] Arguments is_finite : simpl never.
#[local] Arguments BackendMapEndpointsExample.json_of_float : simpl never.

Section Wildfires.
Context `{PIL}.

(** C4: the nearby handler of the map example filters nothing.  Whatever
    the centre and the radius, it returns two wildfires, at
    (lat + 0.05, lng + 0.05) and (lat - 0.03, lng + 0.08), and total 2; the
    list and the total are the same for every radius.  The response the
    route sends holds these two wildfires and total 2 as well, a coordinate
    that is inf or nan being written as null. *)
Theorem nearby_returns_two_fixed_offsets (lat lng : float) (radius : json) :
  exists content w1 w2,
    BackendMapEndpointsExample.get_wildfires_nearby lat lng radius = Returned content
    /\ field "wildfires" content = Some (JList [w1; w2])
    /\ field "lat" w1 = Some (JFloat (lat + 0.05)%float)
    /\ field "lng" w1 = Some (JFloat (lng + 0.05)%float)
    /\ field "lat" w2 = Some (JFloat (lat - 0.03)%float)
    /\ field "lng" w2 = Some (JFloat (lng + 0.08)%float)
    /\ field "total" content = Some (JInt 2)
    /\ (forall radius', exists content',
          BackendMapEndpointsExample.get_wildfires_nearby lat lng radius'
            = Returned content'
          /\ field "wildfires" content' = field "wildfires" content
          /\ field "total" content' = field "total" content)
    /\ (forall supplied : option float, exists sent s1 s2,
          BackendMapEndpointsExample.app (GET_wildfires_nearby lat lng supplied)
            = Some (Returned sent)
          /\ field "wildfires" sent = Some (JList [s1; s2])
          /\ field "lat" s1
             = Some (BackendMapEndpointsExample.json_of_float (lat + 0.05)%float)
          /\ field "lng" s1
             = Some (BackendMapEndpointsExample.json_of_float (lng + 0.05)%float)
          /\ field "lat" s2
             = Some (BackendMapEndpointsExample.json_of_float (lat - 0.03)%float)
          /\ field "lng" s2
             = Some (BackendMapEndpointsExample.json_of_float (lng + 0.08)%float)
          /\ field "total" sent = Some (JInt 2)).
Proof.
  do 3 eexists.
  split; [reflexivity |].
  repeat (split; [reflexivity |]).
  split.
  - intros radius'. eexists. repeat split.
  - intros [supplied |]; do 3 eexists; (split; [reflexivity |]); repeat split.
Qed.

(** C9: in every response of the nearby and active queries, in
    api_server_template.py and in the map example, total is the length of
    the wildfires list. *)
Theorem total_is_the_number_of_wildfires (lat lng : float) (radius : option float) :
  (exists content,
      ApiServerTemplate.app (GET_wildfires_nearby lat lng radius)
        = Some (Returned content)
      /\ total_is_length content = true)
  /\ (exists content,
        ApiServerTemplate.app GET_wildfires_active = Some (Returned content)
        /\ total_is_length content = true)
  /\ (exists content,
        BackendMapEndpointsExample.app (GET_wildfires_nearby lat lng radius)
          = Some (Returned content)
        /\ total_is_length content = true)
  /\ (exists content,
        BackendMapEndpointsExample.app GET_wildfires_active
          = Some (Returned content)
        /\ total_is_length content = true).
Proof. destruct radius; repeat split; eexists; split; reflexivity. Qed.


End Wildfires.



(** ** The upload and predict responses *)

Section Uploads.
Context `{PIL}.

(** C5: the predict handler answers every upload that reads and decodes
    with the same written-out value: risk_level "high", confidence 0.85 and
    the same areas and recommendations, whatever the image holds. *)
Theorem predict_is_constant (image1 image2 : UploadFile)
    (contents1 contents2 : list byte) (decoded1 decoded2 : Image) :
  read image1 = Ok contents1 -> Image_open contents1 = Ok decoded1 ->
  read image2 = Ok contents2 -> Image_open contents2 = Ok decoded2 ->
  ApiServerTemplate.app (POST_predict image1)
    = ApiServerTemplate.app (POST_predict image2)
  /\ BackendIntegrationExample.app (POST_predict image1)
     = BackendIntegrationExample.app (POST_predict image2)
  /\ exists content,
       ApiServerTemplate.app (POST_predict image1) = Some (Returned content)
       /\ BackendIntegrationExample.app (POST_predict image1) = Some (Returned content)
       /\ field "risk_level" content = Some (JStr "high")
       /\ field "confidence" content = Some (JFloat 0.85%float)
       /\ field "affected_areas" content = Some (JList [JStr "Area A"; JStr "Area B"])
       /\ field "recommendations" content
          = Some (JDict [("infrastructure",
                          JList [JStr "Secure power lines in affected zone";
                                 JStr "Prepare water supply systems";
                                 JStr "Alert transportation department"]);
                         ("evacuation",
                          JList [JStr "Route 1: Clear"; JStr "Route 2: Monitor"])]).
Proof.
  intros Hread1 Hopen1 Hread2 Hopen2.
  cbn [ApiServerTemplate.app BackendIntegrationExample.app].
  unfold_handlers.
  rewrite Hread1, Hread2, !bind_Ok, Hopen1, Hopen2, !bind_Ok.
  repeat split. eexists. repeat split.
Qed.

(** C6 (as amended): an upload answered 200 carries message "Image
    uploaded successfully" and the filename of the uploaded file, in all
    three servers; api_server_template.py and backend_integration_example.py
    add size, the number of bytes read; api_server_template.py adds
    timestamp, the form value, or null when that is absent or empty; the
    response of the map example has no size and no timestamp. *)
Theorem upload_response_fields (image : UploadFile) (form : UploadForm)
    (query_timestamp : option string) (content : json) :
  (answered_200 (ApiServerTemplate.app (POST_upload_image image form query_timestamp))
     content ->
   field "message" content = Some (JStr "Image uploaded successfully")
   /\ field "filename" content = Some (json_of_option JStr (filename image))
   /\ (exists contents,
         read image = Ok contents
         /\ field "size" content = Some (JInt (len contents)))
   /\ field "timestamp" content
      = Some (match form_timestamp form with
              | Some "" | None => JNull
              | Some value => JStr value
              end))
  /\ (answered_200
        (BackendIntegrationExample.app (POST_upload_image image form query_timestamp))
        content ->
      field "message" content = Some (JStr "Image uploaded successfully")
      /\ field "filename" content = Some (json_of_option JStr (filename image))
      /\ exists contents,
           read image = Ok contents
           /\ field "size" content = Some (JInt (len contents)))
  /\ (answered_200
        (BackendMapEndpointsExample.app (POST_upload_image image form query_timestamp))
        content ->
      field "message" content = Some (JStr "Image uploaded successfully")
      /\ field "filename" content = Some (json_of_option JStr (filename image))
      /\ field "size" content = None
      /\ field "timestamp" content = None).
Proof.
  assert (Hsent : forall returned_content,
             answered_200 (Some (Returned returned_content)) content ->
             content = returned_content).
  { intros returned_content [_ Hjson]. cbn [option_map response_json] in Hjson.
    destruct (encodable returned_content); now injection Hjson. }
  assert (Herror : forall body,
             answered_200 (Some (try_except body (fun e => HTTPException 500 (str e))))
               content ->
             exists returned_content, body = Ok returned_content).
  { intros [returned_content | e] [Hstatus _]; [now eexists | discriminate Hstatus]. }
  cbn [ApiServerTemplate.app BackendIntegrationExample.app
       BackendMapEndpointsExample.app].
  split; [| split]; intros Hanswer;
    destruct (Herror _ Hanswer) as [returned_content Hbody];
    unfold_handlers; rewrite Hbody in Hanswer;
    apply Hsent in Hanswer; subst returned_content;
    (destruct (read image) as [contents |]; [| discriminate Hbody]);
    rewrite bind_Ok in Hbody;
    try (destruct (Image_open contents); [| discriminate Hbody];
         rewrite bind_Ok in Hbody).
  - destruct (truthy (py_and (form_latitude form) (form_longitude form)));
      injection Hbody as <-;
      (repeat split; [now exists contents |]);
      destruct (form_timestamp form) as [[|] |]; reflexivity.
  - injection Hbody as <-. repeat split. now exists contents.
  - injection Hbody as <-. repeat split.
Qed.

(** C8: the upload handlers put a location in the response only when both
    latitude and longitude are truthy.  When one of them is absent or zero,
    api_server_template.py leaves the key out and the map example sets it to
    null, although a coordinate was sent. *)
Theorem location_only_when_both_truthy (image : UploadFile)
    (latitude longitude : option float) (timestamp : option string)
    (contents : list byte) (decoded : Image) :
  read image = Ok contents -> Image_open contents = Ok decoded ->
  (exists content,
      ApiServerTemplate.upload_image image latitude longitude timestamp
        = Returned content
      /\ field "location" content
         = if truthy latitude && truthy longitude
           then Some (JDict [("lat", json_of_option JFloat latitude);
                             ("lng", json_of_option JFloat longitude)])
           else None)
  /\ (exists content,
        BackendMapEndpointsExample.upload_image_with_location
          image latitude longitude timestamp
          = Returned content
        /\ field "location" content
           = Some (if truthy latitude && truthy longitude
                   then JDict [("lat", json_of_option JFloat latitude);
                               ("lng", json_of_option JFloat longitude)]
                   else JNull))
  /\ truthy None = false
  /\ truthy (Some 0%float) = false
  /\ truthy (Some (-0)%float) = false.
Proof.
  intros Hread Hopen.
  unfold_handlers.
  rewrite Hread, !bind_Ok, Hopen, !bind_Ok, truthy_py_and.
  repeat split.
  - destruct (truthy latitude && truthy longitude); eexists; repeat split.
  - eexists; repeat split.
Qed.

End Uploads.

(** C5, the witness: two different PNG uploads. *)
Lemma predict_is_constant_witness :
  @ApiServerTemplate.app png_only (POST_predict png_upload)
    = @ApiServerTemplate.app png_only (POST_predict other_png_upload)
  /\ @ApiServerTemplate.app png_only (POST_predict png_upload)
     = Some (Returned predict_json).
Proof.
  destruct (@predict_is_constant png_only png_upload other_png_upload
              _ _ _ _ eq_refl eq_refl eq_refl eq_refl)
    as [Hsame _].
  split; [exact Hsame | reflexivity].
Defined.

(** C6, the witness: a one-pixel PNG sent with coordinates and a
    timestamp. *)
Lemma upload_response_fields_witness :
  answered_200
    (@ApiServerTemplate.app png_only
       (POST_upload_image one_pixel_upload ottawa_form None))
    one_pixel_response
  /\ field "message" one_pixel_response = Some (JStr "Image uploaded successfully")
  /\ field "filename" one_pixel_response = Some (JStr "pixel.png")
  /\ (exists contents,
        read one_pixel_upload = Ok contents
        /\ field "size" one_pixel_response = Some (JInt (len contents)))
  /\ field "timestamp" one_pixel_response = Some (JStr "2024-06-01T10:00:00Z").
Proof.
  split.
  - split; reflexivity.
  - apply (proj1 (@upload_response_fields png_only one_pixel_upload ottawa_form None
                    one_pixel_response)).
    split; reflexivity.
Defined.

(** C6 (as stated), refuted: the upload route of the map example answers a
    one-pixel PNG with 200 and a response without size and without
    timestamp. *)
Lemma map_upload_has_no_size_or_timestamp :
  @BackendMapEndpointsExample.app png_only
    (POST_upload_image one_pixel_upload ottawa_form None)
  = Some (Returned
            (JDict [("message", JStr "Image uploaded successfully");
                    ("filename", JStr "pixel.png");
                    ("location",
                     JDict [("lat", JFloat 45.42%float);
                            ("lng", JFloat (-75.69)%float)]);
                    ("prediction",
                     JDict [("risk_level", JStr "medium");
                            ("confidence", JFloat 0.75%float)])]))
  /\ option_map http_status
       (@BackendMapEndpointsExample.app png_only
          (POST_upload_image one_pixel_upload ottawa_form None))
     = Some 200
  /\ option_map (field "size")
       (returned (@BackendMapEndpointsExample.app png_only
                    (POST_upload_image one_pixel_upload ottawa_form None)))
     = Some None
  /\ option_map (field "timestamp")
       (returned (@BackendMapEndpointsExample.app png_only
                    (POST_upload_image one_pixel_upload ottawa_form None)))
     = Some None.
Proof. repeat split. Qed.

(** The upload route of backend_integration_example.py takes timestamp from
    the query string: a timestamp sent as a form field does not reach the
    response, one sent in the query string does. *)
Example backend_integration_timestamp_source :
  option_map (field "timestamp")
    (returned (BackendIntegrationExample.app
                 (POST_upload_image one_pixel_upload ottawa_form None)))
  = Some (Some JNull)
  /\ option_map (field "timestamp")
       (returned (BackendIntegrationExample.app
                    (POST_upload_image one_pixel_upload no_form
                       (Some "2024-06-01T10:00:00Z"))))
     = Some (Some (JStr "2024-06-01T10:00:00Z")).
Proof. split; reflexivity. Qed.

(** C8, the witness: an upload from the equator, latitude 0.0. *)
Lemma location_only_when_both_truthy_witness :
  (exists content,
      @ApiServerTemplate.upload_image png_only png_upload
        (Some 0%float) (Some 36.8%float) None
        = Returned content
      /\ field "location" content = None)
  /\ (exists content,
        @BackendMapEndpointsExample.upload_image_with_location png_only png_upload
          (Some 0%float) (Some 36.8%float) None
          = Returned content
        /\ field "location" content = Some JNull).
Proof.
  destruct (@location_only_when_both_truthy png_only png_upload
              (Some 0%float) (Some 36.8%float) None _ _ eq_refl eq_refl)
    as [Htemplate [Hmap _]].
  split; [exact Htemplate | exact Hmap].
Defined.

(** ** CORS *)

(** C7: the CORS configuration of api_server_template.py and of
    backend_integration_example.py allows exactly http://localhost:3000 and
    http://127.0.0.1:3000, and a preflight request from an allowed origin
    gets that origin back in the allow-origin header; any other origin gets
    no such header. *)
Theorem cors_allows_exactly_two_local_origins (origin : string) :
  (is_allowed_origin ApiServerTemplate.cors origin = true <->
   origin = "http://localhost:3000" \/ origin = "http://127.0.0.1:3000")
  /\ (is_allowed_origin BackendIntegrationExample.cors origin = true <->
      origin = "http://localhost:3000" \/ origin = "http://127.0.0.1:3000")
  /\ preflight_allow_origin ApiServerTemplate.cors origin
     = (if is_allowed_origin ApiServerTemplate.cors origin then Some origin else None)
  /\ preflight_allow_origin BackendIntegrationExample.cors origin
     = (if is_allowed_origin BackendIntegrationExample.cors origin
        then Some origin else None)
  /\ preflight_allow_origin ApiServerTemplate.cors "http://localhost:3000"
     = Some "http://localhost:3000"
  /\ preflight_allow_origin ApiServerTemplate.cors "http://127.0.0.1:3000"
     = Some "http://127.0.0.1:3000"
  /\ preflight_allow_origin BackendIntegrationExample.cors "http://localhost:3000"
     = Some "http://localhost:3000"
  /\ preflight_allow_origin BackendIntegrationExample.cors "http://127.0.0.1:3000"
     = Some "http://127.0.0.1:3000".
Proof.
  assert (Hallowed : forall m,
             allow_origins m = ["http://localhost:3000"; "http://127.0.0.1:3000"] ->
             (is_allowed_origin m origin = true <->
              origin = "http://localhost:3000" \/ origin = "http://127.0.0.1:3000")).
  { intros m Hm. unfold is_allowed_origin, allow_all_origins. rewrite Hm.
    cbn [existsb]. rewrite !orb_false_r.
    change ("*" =? "http://localhost:3000")%string with false.
    change ("*" =? "http://127.0.0.1:3000")%string with false.
    cbn [orb]. rewrite orb_true_iff, !String.eqb_eq. reflexivity. }
  repeat split; try (apply Hallowed; reflexivity); try reflexivity.
Qed.

(** * Further properties of the servers *)

(** ** Status codes of the three servers *)

Section StatusCodes.
Context `{PIL}.






(** X3: a location in an upload response holds the two coordinates that
    were sent, both numbers other than zero: in api_server_template.py
    whenever the key is there, in the map example whenever it is not
    null. *)
Theorem location_holds_the_coordinates_sent (image : UploadFile)
    (latitude longitude : option float) (timestamp : option string)
    (content location : json) :
  (ApiServerTemplate.upload_image image latitude longitude timestamp = Returned content
   \/ (BackendMapEndpointsExample.upload_image_with_location
         image latitude longitude timestamp = Returned content
       /\ location <> JNull)) ->
  field "location" content = Some location ->
  exists x y,
    latitude = Some x /\ longitude = Some y
    /\ (x =? 0)%float = false /\ (y =? 0)%float = false
    /\ location = JDict [("lat", JFloat x); ("lng", JFloat y)].
Proof.
  assert (Hboth : truthy latitude && truthy longitude = true ->
                  exists x y, latitude = Some x /\ longitude = Some y
                              /\ (x =? 0)%float = false /\ (y =? 0)%float = false).
  { destruct latitude as [x |], longitude as [y |]; cbn [truthy andb];
      try discriminate; rewrite ?andb_false_r; try discriminate.
    intros [Hx Hy]%andb_true_iff. exists x, y.
    now rewrite <- (negb_involutive (x =? 0)%float), <- (negb_involutive (y =? 0)%float),
            Hx, Hy. }
  intros Hreturned Hlocation.
  assert (Hfound : truthy latitude && truthy longitude = true
                   /\ location = JDict [("lat", json_of_option JFloat latitude);
                                        ("lng", json_of_option JFloat longitude)]).
  { destruct Hreturned as [Hreturned | [Hreturned Hnot_null]];
      unfold_handlers;
      (destruct (read image) as [contents |]; [| discriminate Hreturned]);
      rewrite bind_Ok in Hreturned;
      (destruct (Image_open contents); [| discriminate Hreturned]);
      rewrite bind_Ok, truthy_py_and in Hreturned;
      destruct (truthy latitude && truthy longitude);
      injection Hreturned as <-; cbn in Hlocation;
      try discriminate Hlocation; injection Hlocation as <-;
      solve [ now split | now contradiction Hnot_null ]. }
  destruct Hfound as [Htruthy ->].
  destruct (Hboth Htruthy) as (x & y & -> & -> & Hx & Hy).
  exists x, y. repeat split; assumption.
Qed.

End StatusCodes.



(** X3, the witness: a PNG sent from Ottawa to api_server_template.py. *)
Lemma location_holds_the_coordinates_sent_witness :
  exists x y,
    Some 45.42%float = Some x /\ Some (-75.69)%float = Some y
    /\ (x =? 0)%float = false /\ (y =? 0)%float = false
    /\ JDict [("lat", JFloat 45.42%float); ("lng", JFloat (-75.69)%float)]
       = JDict [("lat", JFloat x); ("lng", JFloat y)].
Proof.
  eapply (@location_holds_the_coordinates_sent png_only png_upload
            (Some 45.42%float) (Some (-75.69)%float) None).
  - left. reflexivity.
  - reflexivity.
Defined.

(** ** The CORS configuration of integration_examples.py *)

(** X15: integration_examples.py allows http://localhost:3000 and no other
    origin; a preflight request from http://127.0.0.1:3000, which the two
    server files allow, gets no allow-origin header from it. *)
Theorem integration_examples_allow_one_origin (origin : string) :
  (is_allowed_origin IntegrationExamples.cors origin = true <->
   origin = "http://localhost:3000")
  /\ preflight_allow_origin IntegrationExamples.cors origin
     = (if String.eqb origin "http://localhost:3000" then Some origin else None)
  /\ preflight_allow_origin IntegrationExamples.cors "http://127.0.0.1:3000" = None
  /\ is_allowed_origin ApiServerTemplate.cors "http://127.0.0.1:3000" = true
  /\ is_allowed_origin BackendIntegrationExample.cors "http://127.0.0.1:3000" = true.
Proof.
  assert (Hallowed : is_allowed_origin IntegrationExamples.cors origin
                     = String.eqb origin "http://localhost:3000").
  { unfold is_allowed_origin, allow_all_origins. cbn [IntegrationExamples.cors allow_origins existsb].
    change ("*" =? "http://localhost:3000")%string with false.
    cbn [orb]. apply orb_false_r. }
  repeat split; try reflexivity.
  - rewrite Hallowed. apply String.eqb_eq.
  - intros ->. reflexivity.
  - unfold preflight_allow_origin. rewrite Hallowed. reflexivity.
Qed.

(** ** Example 7 of integration_examples.py: validation and error handling *)

Lemma len_eqb_0 {A : Type} (l : list A) : (len l =? 0) = true <-> l = [].
Proof.
  unfold len. destruct l; cbn [List.length]; split; intros Hl;
    try reflexivity; discriminate Hl.
Qed.

Lemma len_eqb_0_false {A : Type} (l : list A) : (len l =? 0) = false <-> l <> [].
Proof.
  rewrite <- len_eqb_0. destruct (len l =? 0); split; congruence.
Qed.

Lemma too_small_false (width height : Z) :
  (width <? 100) || (height <? 100) = false <-> 100 <= width /\ 100 <= height.
Proof. rewrite orb_false_iff, !Z.ltb_ge. reflexivity. Qed.

Section Example7Properties.
Import IntegrationExamples.
Context {pil : PIL} {tools : PILImage} {your_ml_model : MLModel}.

(** The checks of the handler in the order it makes them. *)
Lemma predict_wildfire_7_steps (image : UploadFile) :
  predict_wildfire_7 image =
  if truthy_str (filename image) then
    match read image with
    | Raise e => HTTPException 500 ("Server error: " ++ str e)
    | Ok contents =>
        if len contents =? 0 then HTTPException 400 "Empty image file"
        else
          match Image_open contents with
          | Raise _ => HTTPException 400 "Invalid image format"
          | Ok image_pil =>
              match verify image_pil with
              | Raise _ => HTTPException 400 "Invalid image format"
              | Ok _ =>
                  if (fst (size image_pil) <? 100) || (snd (size image_pil) <? 100)
                  then HTTPException 400 "Image too small"
                  else
                    match predict image_pil with
                    | Raise e => HTTPException 500 ("ML model error: " ++ str e)
                    | Ok prediction => Returned prediction
                    end
              end
          end
    end
  else HTTPException 400 "No filename provided".
Proof.
  unfold predict_wildfire_7, predict_wildfire_7_body.
  destruct (truthy_str (filename image)); [| reflexivity].
  destruct (read image) as [contents | e]; [| reflexivity].
  cbn [negb raise_if flow_bind call].
  destruct (len contents =? 0); [reflexivity |].
  cbn [raise_if flow_bind].
  destruct (Image_open contents) as [image_pil | e]; [| reflexivity].
  rewrite bind_Ok.
  destruct (verify image_pil) as [[] | e]; [| reflexivity].
  cbn [try_reraise flow_bind call].
  destruct ((fst (size image_pil) <? 100) || (snd (size image_pil) <? 100));
    [reflexivity |].
  cbn [raise_if flow_bind].
  destruct (predict image_pil); reflexivity.
Qed.

(** Walk through the checks of the handler, one case per way out. *)
Ltac example7_cases image :=
  rewrite (predict_wildfire_7_steps image);
  let contents := fresh "contents" in
  let image_pil := fresh "image_pil" in
  destruct (truthy_str (filename image)) eqn:Hname;
  [ destruct (read image) as [contents | ?e] eqn:Hread;
    [ destruct (len contents =? 0) eqn:Hlen;
      [ apply len_eqb_0 in Hlen
      | apply len_eqb_0_false in Hlen;
        destruct (Image_open contents) as [image_pil | ?e] eqn:Hopen;
        [ destruct (verify image_pil) as [[] | ?e] eqn:Hverify;
          [ destruct ((fst (size image_pil) <? 100) || (snd (size image_pil) <? 100))
              eqn:Hsize;
            [ | apply too_small_false in Hsize;
                destruct (predict image_pil) as [?prediction | ?e] eqn:Hpredict ]
          | ]
        | ] ]
    | ]
  | ].

(** X4: Example 7 checks the request before it looks at the image: it
    answers 400 "No filename provided" exactly when the upload has no
    filename or an empty one, whatever the upload holds and even when it
    cannot be read, and 400 "Empty image file" exactly when a named upload
    reads as zero bytes. *)
Theorem example7_checks_the_request_first (image : UploadFile) :
  (predict_wildfire_7 image = HTTPException 400 "No filename provided" <->
   filename image = None \/ filename image = Some "")
  /\ (predict_wildfire_7 image = HTTPException 400 "Empty image file" <->
      truthy_str (filename image) = true /\ read image = Ok []).
Proof.
  assert (Hfalsy : truthy_str (filename image) = false <->
                   filename image = None \/ filename image = Some "").
  { unfold truthy_str. destruct (filename image) as [s |].
    - destruct (String.eqb_spec s ""); cbn [negb]; split; intros Hs;
        try discriminate; try (right; congruence); try reflexivity.
      destruct Hs as [Hs | [= Hs]]; [discriminate | contradiction].
    - split; [now left | reflexivity]. }
  split.
  - rewrite <- Hfalsy. example7_cases image; split; intros Hout;
      try discriminate Hout; reflexivity.
  - split.
    + example7_cases image; intros Hout; try discriminate Hout.
      subst contents. split; reflexivity.
    + intros [Hname Hread].
      now rewrite predict_wildfire_7_steps, Hname, Hread.
Qed.

(** X5: Example 7 answers 400 "Invalid image format" exactly when a named,
    non-empty upload was read and either does not open as an image or opens
    and fails [verify]; what the image library said about it is not
    passed on. *)
Theorem example7_invalid_image_iff (image : UploadFile) :
  predict_wildfire_7 image = HTTPException 400 "Invalid image format" <->
  truthy_str (filename image) = true
  /\ exists contents,
       read image = Ok contents /\ contents <> []
       /\ ((exists e, Image_open contents = Raise e)
           \/ (exists image_pil e,
                 Image_open contents = Ok image_pil /\ verify image_pil = Raise e)).
Proof.
  split.
  - example7_cases image; intros Hout; try discriminate Hout;
      (split; [reflexivity |]); exists contents; repeat split; try assumption.
    + right. now exists image_pil, e.
    + left. now exists e.
  - intros (Hname & contents & Hread & Hne & Hbad).
    apply len_eqb_0_false in Hne.
    rewrite predict_wildfire_7_steps, Hname, Hread, Hne.
    destruct Hbad as [[e Hopen] | (image_pil & e & Hopen & Hverify)].
    + now rewrite Hopen.
    + now rewrite Hopen, Hverify.
Qed.

(** X6: Example 7 answers 400 "Image too small" exactly when a named,
    non-empty upload opens and verifies as an image whose width or height
    is below 100; the model is not called for it. *)
Theorem example7_too_small_iff (image : UploadFile) :
  predict_wildfire_7 image = HTTPException 400 "Image too small" <->
  truthy_str (filename image) = true
  /\ exists contents image_pil,
       read image = Ok contents /\ contents <> []
       /\ Image_open contents = Ok image_pil /\ verify image_pil = Ok tt
       /\ (fst (size image_pil) < 100 \/ snd (size image_pil) < 100).
Proof.
  split.
  - example7_cases image; intros Hout; try discriminate Hout.
    split; [reflexivity |]. exists contents, image_pil.
    repeat split; try assumption.
    apply orb_true_iff in Hsize. rewrite !Z.ltb_lt in Hsize. exact Hsize.
  - intros (Hname & contents & image_pil & Hread & Hne & Hopen & Hverify & Hsmall).
    apply len_eqb_0_false in Hne.
    rewrite predict_wildfire_7_steps, Hname, Hread, Hne, Hopen, Hverify.
    assert ((fst (size image_pil) <? 100) || (snd (size image_pil) <? 100) = true)
      as -> by (apply orb_true_iff; rewrite !Z.ltb_lt; exact Hsmall).
    reflexivity.
Qed.

(** X7: Example 7 returns a prediction exactly when the upload has a
    filename, reads as a non-empty stream that opens and verifies as an
    image of at least 100 by 100, and the model returns that prediction
    for it. *)
Theorem example7_succeeds_iff (image : UploadFile) (prediction : json) :
  predict_wildfire_7 image = Returned prediction <->
  truthy_str (filename image) = true
  /\ exists contents image_pil,
       read image = Ok contents /\ contents <> []
       /\ Image_open contents = Ok image_pil /\ verify image_pil = Ok tt
       /\ 100 <= fst (size image_pil) /\ 100 <= snd (size image_pil)
       /\ predict image_pil = Ok prediction.
Proof.
  split.
  - example7_cases image; intros Hout; try discriminate Hout.
    injection Hout as <-. split; [reflexivity |]. exists contents, image_pil.
    destruct Hsize. repeat split; assumption.
  - intros (Hname & contents & image_pil & Hread & Hne & Hopen & Hverify
            & Hwidth & Hheight & Hpredict).
    apply len_eqb_0_false in Hne.
    rewrite predict_wildfire_7_steps, Hname, Hread, Hne, Hopen, Hverify.
    assert ((fst (size image_pil) <? 100) || (snd (size image_pil) <? 100) = false)
      as -> by (apply too_small_false; split; assumption).
    now rewrite Hpredict.
Qed.

(** X8: Example 7 answers 500 in two cases only, and says which in the
    detail: reading a named upload raised, "Server error: " and the
    exception's message; or the model raised on an image that passed every
    check, "ML model error: " and the exception's message. *)
Theorem example7_server_errors_iff (image : UploadFile) (detail : string) :
  predict_wildfire_7 image = HTTPException 500 detail <->
  truthy_str (filename image) = true
  /\ ((exists e, read image = Raise e /\ detail = "Server error: " ++ str e)
      \/ (exists contents image_pil e,
            read image = Ok contents /\ contents <> []
            /\ Image_open contents = Ok image_pil /\ verify image_pil = Ok tt
            /\ 100 <= fst (size image_pil) /\ 100 <= snd (size image_pil)
            /\ predict image_pil = Raise e
            /\ detail = "ML model error: " ++ str e)).
Proof.
  split.
  - example7_cases image; intros Hout; try discriminate Hout;
      injection Hout as <-; (split; [reflexivity |]).
    + right. exists contents, image_pil, e. destruct Hsize.
      repeat split; assumption.
    + left. now exists e.
  - intros (Hname & [(e & Hread & ->)
                    | (contents & image_pil & e & Hread & Hne & Hopen & Hverify
                       & Hwidth & Hheight & Hpredict & ->)]).
    + now rewrite predict_wildfire_7_steps, Hname, Hread.
    + apply len_eqb_0_false in Hne.
      rewrite predict_wildfire_7_steps, Hname, Hread, Hne, Hopen, Hverify.
      assert ((fst (size image_pil) <? 100) || (snd (size image_pil) <? 100) = false)
        as -> by (apply too_small_false; split; assumption).
      now rewrite Hpredict.
Qed.

(** X9: whatever the upload, the image library and the model do, Example 7
    lets no exception out: it returns a prediction, or answers 400 with one
    of its four fixed details, or answers 500 with a detail that starts with
    "Server error: " or "ML model error: ". *)
Theorem example7_answers_200_400_or_500 (image : UploadFile) :
  (exists prediction, predict_wildfire_7 image = Returned prediction)
  \/ (exists detail,
        predict_wildfire_7 image = HTTPException 400 detail
        /\ In detail example7_client_errors)
  \/ (exists e,
        predict_wildfire_7 image = HTTPException 500 ("Server error: " ++ str e)
        \/ predict_wildfire_7 image = HTTPException 500 ("ML model error: " ++ str e)).
Proof.
  unfold example7_client_errors.
  example7_cases image;
    solve [ left; eexists; reflexivity
          | right; left; eexists; split; [reflexivity | cbn [In]; tauto]
          | right; right; eexists; left; reflexivity
          | right; right; eexists; right; reflexivity ].
Qed.

End Example7Properties.

(** X4, the witness: an upload without a filename, and a named one of zero
    bytes. *)
Lemma example7_checks_the_request_first_witness :
  @IntegrationExamples.predict_wildfire_7 png_only png_tools placeholder_model
    unnamed_upload
  = HTTPException 400 "No filename provided"
  /\ @IntegrationExamples.predict_wildfire_7 png_only png_tools placeholder_model
       empty_upload
     = HTTPException 400 "Empty image file".
Proof.
  split.
  - apply (proj1 (@example7_checks_the_request_first png_only png_tools
                    placeholder_model unnamed_upload)).
    left. reflexivity.
  - apply (proj2 (@example7_checks_the_request_first png_only png_tools
                    placeholder_model empty_upload)).
    split; reflexivity.
Defined.

(** X5, the witness: a text file sent under a name. *)
Lemma example7_invalid_image_iff_witness :
  @IntegrationExamples.predict_wildfire_7 png_only png_tools placeholder_model
    text_upload
  = HTTPException 400 "Invalid image format".
Proof.
  apply (@example7_invalid_image_iff png_only png_tools placeholder_model text_upload).
  split; [reflexivity |].
  exists (list_byte_of_string "not an image").
  repeat split; [discriminate |].
  left. exists UnidentifiedImageError. reflexivity.
Defined.

(** X6, the witness: a PNG of 128 by 96. *)
Lemma example7_too_small_iff_witness :
  @IntegrationExamples.predict_wildfire_7 png_only png_tools placeholder_model
    png_upload
  = HTTPException 400 "Image too small".
Proof.
  apply (@example7_too_small_iff png_only png_tools placeholder_model png_upload).
  split; [reflexivity |].
  exists (png_signature ++ [x00; x01])%list, (png_signature ++ [x00; x01])%list.
  repeat split; [discriminate |].
  right. reflexivity.
Defined.

(** X7, the witness: a PNG of 256 by 192 and a model that answers. *)
Lemma example7_succeeds_iff_witness :
  @IntegrationExamples.predict_wildfire_7 png_only png_tools placeholder_model
    large_png_upload
  = Returned predict_json.
Proof.
  apply (@example7_succeeds_iff png_only png_tools placeholder_model large_png_upload).
  split; [reflexivity |].
  exists (png_signature ++ [x00; x01; x02; x03])%list,
         (png_signature ++ [x00; x01; x02; x03])%list.
  repeat split; try discriminate.
Defined.

(** X8, the witness: the same PNG with the model of the file as it stands,
    and an upload whose read fails. *)
Lemma example7_server_errors_iff_witness :
  @IntegrationExamples.predict_wildfire_7 png_only png_tools undefined_model
    large_png_upload
  = HTTPException 500 "ML model error: name 'your_ml_model' is not defined"
  /\ @IntegrationExamples.predict_wildfire_7 png_only png_tools undefined_model
       failing_upload
     = HTTPException 500 "Server error: read failed".
Proof.
  split.
  - apply (@example7_server_errors_iff png_only png_tools undefined_model
             large_png_upload).
    split; [reflexivity |]. right.
    exists (png_signature ++ [x00; x01; x02; x03])%list,
           (png_signature ++ [x00; x01; x02; x03])%list,
           {| exc_type := "NameError"; str := "name 'your_ml_model' is not defined" |}.
    repeat split; try discriminate.
  - apply (@example7_server_errors_iff png_only png_tools undefined_model
             failing_upload).
    split; [reflexivity |]. left.
    exists {| exc_type := "OSError"; str := "read failed" |}.
    split; reflexivity.
Defined.

(** ** Example 8 of integration_examples.py: loading the model *)

Section Example8Properties.
Import IntegrationExamples.
Context {pil : PIL} {model : MLModel}.

Lemma load_model_cached (p : Process) (cached : Image -> PyResult json) :
  load_model_cache p = Some cached -> load_model p = (cached, p).
Proof. unfold load_model. now intros ->. Qed.

Lemma serve_with_model_loaded (images : list UploadFile) (p : Process) :
  load_model_cache p = Some predict ->
  serve images p
  = (map (fun image => no_try (contents <- read image ;;
                               image_pil <- Image_open contents ;;
                               predict image_pil)) images,
     p).
Proof.
  intros Hcache. induction images as [| image images IH]; [reflexivity |].
  cbn [serve map]. unfold predict_wildfire_8.
  rewrite (load_model_cached p predict Hcache), IH. reflexivity.
Qed.

(** X10: Example 8 loads its model once.  After the startup event, and
    just as well when the first request finds nothing cached, any number of
    requests served one after the other leaves "Loading model..." and
    "Model loaded!" printed once, each request is answered with what the
    model gives for its image (an exception of the read, the open or the
    model leaves the handler), and the answers do not depend on whether the
    startup event ran. *)
Theorem example8_loads_the_model_once (image : UploadFile) (images : list UploadFile) :
  let answer := fun image => no_try (contents <- read image ;;
                                     image_pil <- Image_open contents ;;
                                     predict image_pil) in
  let loaded := {| load_model_cache := Some predict;
                   stdout := ["Loading model..."; "Model loaded!"] |} in
  serve images (startup_event fresh) = (map answer images, loaded)
  /\ serve (image :: images) fresh = (map answer (image :: images), loaded)
  /\ serve [] fresh = ([], fresh).
Proof.
  intros answer loaded.
  split; [| split]; [| | reflexivity].
  - apply (serve_with_model_loaded images loaded). reflexivity.
  - cbn [serve]. unfold predict_wildfire_8.
    change (load_model fresh) with (predict, loaded). cbv beta iota.
    rewrite (serve_with_model_loaded images loaded eq_refl). reflexivity.
Qed.

End Example8Properties.

(** ** Example 9 of integration_examples.py: the Flask version *)

Section Example9Properties.
Import IntegrationExamples.
Context `{PIL}.

(** X11: the Flask handler answers 400 with an error field (not a detail)
    exactly when the request has no image part, and 200 with its fixed
    prediction exactly when the image part reads and opens; an exception of
    the read or the open is not caught and leaves the handler. *)
Theorem flask_predict_cases (files : list (string * UploadFile)) :
  (forall body,
      predict_wildfire_9 files = Ok (body, 400) <->
      files_get "image" files = None
      /\ body = JDict [("error", JStr "No image file")])
  /\ (forall body,
        predict_wildfire_9 files = Ok (body, 200) <->
        body = JDict [("risk_level", JStr "high"); ("confidence", JFloat 0.85%float)]
        /\ exists file contents image_pil,
             files_get "image" files = Some file
             /\ read file = Ok contents /\ Image_open contents = Ok image_pil)
  /\ (forall e,
        predict_wildfire_9 files = Raise e <->
        exists file, files_get "image" files = Some file
                     /\ raised_by_read_or_open file e)
  /\ (forall body status_code,
        predict_wildfire_9 files = Ok (body, status_code) ->
        (status_code = 200 \/ status_code = 400) /\ field "detail" body = None).
Proof.
  unfold predict_wildfire_9, raised_by_read_or_open.
  destruct (files_get "image" files) as [file |].
  - destruct (read file) as [contents | e0] eqn:Hread.
    + rewrite bind_Ok.
      destruct (Image_open contents) as [image_pil | e0] eqn:Hopen.
      * rewrite bind_Ok. split; [| split; [| split]].
        -- intros body. split; [intros [=] | intros [[=] _]].
        -- intros body. split.
           ++ intros [= <-]. split; [reflexivity |].
              exists file, contents, image_pil. repeat split; assumption.
           ++ intros [-> _]. reflexivity.
        -- intros e. split; [intros [=] |].
           intros (file' & [= <-] & [Hraise | (contents' & Hread' & Hraise)]);
             congruence.
        -- intros body status_code [= <- <-].
           split; [left; reflexivity | reflexivity].
      * rewrite bind_Raise. split; [| split; [| split]].
        -- intros body. split; [intros [=] | intros [[=] _]].
        -- intros body. split; [intros [=] |].
           intros (_ & file' & contents' & image_pil' & [= <-] & Hread' & Hopen').
           congruence.
        -- intros e. split.
           ++ intros [= <-]. exists file. split; [reflexivity |].
              right. exists contents. split; assumption.
           ++ intros (file' & [= <-] & [Hraise | (contents' & Hread' & Hraise)]);
                congruence.
        -- intros body status_code [=].
    + rewrite bind_Raise. split; [| split; [| split]].
      * intros body. split; [intros [=] | intros [[=] _]].
      * intros body. split; [intros [=] |].
        intros (_ & file' & contents' & image_pil' & [= <-] & Hread' & _).
        congruence.
      * intros e. split.
        -- intros [= <-]. exists file. split; [reflexivity |]. left. exact Hread.
        -- intros (file' & [= <-] & [Hraise | (contents' & Hread' & Hraise)]);
             congruence.
      * intros body status_code [=].
  - split; [| split; [| split]].
    + intros body. split.
      * intros [= <-]. split; reflexivity.
      * intros [_ ->]. reflexivity.
    + intros body. split; [intros [=] |].
      intros (_ & file & contents & image_pil & [=] & _).
    + intros e. split; [intros [=] | intros (file & [=] & _)].
    + intros body status_code [= <- <-].
      split; [right; reflexivity | reflexivity].
Qed.

End Example9Properties.

(** ** The response model of the map example *)

Section ResponseModel.
Import BackendMapEndpointsExample.

(** X14: a returned dict that lacks wildfires or total does not go out in
    part: the response is a 500 without JSON body, raised after the
    handler's own [try], while an HTTP error of the handler passes through
    as it is. *)
Theorem response_model_needs_wildfires_and_total (d : dict) :
  dict_get "wildfires" d = None \/ dict_get "total" d = None ->
  response_model (Returned (JDict d)) = Unhandled ResponseValidationError
  /\ http_status (response_model (Returned (JDict d))) = 500
  /\ response_json (response_model (Returned (JDict d))) = None
  /\ forall status_code detail,
       response_model (HTTPException status_code detail)
       = HTTPException status_code detail.
Proof.
  intros Hmissing.
  assert (Hinvalid : WildfireResponse_validate (JDict d) = None).
  { unfold WildfireResponse_validate.
    destruct Hmissing as [-> | Htotal]; [reflexivity |].
    destruct (required (as_list WildfireLocation_validate) (dict_get "wildfires" d));
      [| reflexivity].
    now rewrite Htotal. }
  unfold response_model. rewrite Hinvalid. repeat split.
Qed.

End ResponseModel.

(** X14, the witness: a dict with wildfires and no total. *)
Lemma response_model_needs_wildfires_and_total_witness :
  BackendMapEndpointsExample.response_model
    (Returned (JDict [("wildfires", JList [])]))
  = Unhandled BackendMapEndpointsExample.ResponseValidationError.
Proof.
  apply (response_model_needs_wildfires_and_total [("wildfires", JList [])]).
  right. reflexivity.
Defined.

(** ** Examples 5 and 6 of integration_examples.py, and what an upload
    response depends on *)

Section BareHandlers.
Context `{PIL}.

(** X16: the handlers of Examples 5 and 6 never answer with an HTTP error
    of their own: an exception of the read or the open leaves the handler
    as it was raised, and only then; otherwise Example 5 returns null and
    Example 6 the upload response with the number of bytes read as size. *)
Theorem examples_5_and_6_pass_exceptions_on (image : UploadFile)
    (timestamp : option string) :
  (forall e,
      IntegrationExamples.predict_wildfire_5 image = Unhandled e <->
      raised_by_read_or_open image e)
  /\ (forall e,
        IntegrationExamples.upload_image_6 image timestamp = Unhandled e <->
        raised_by_read_or_open image e)
  /\ (forall status_code detail,
        IntegrationExamples.predict_wildfire_5 image <> HTTPException status_code detail
        /\ IntegrationExamples.upload_image_6 image timestamp
           <> HTTPException status_code detail)
  /\ (forall content,
        IntegrationExamples.predict_wildfire_5 image = Returned content ->
        content = JNull)
  /\ (forall content,
        IntegrationExamples.upload_image_6 image timestamp = Returned content ->
        exists contents,
          read image = Ok contents
          /\ field "size" content = Some (JInt (len contents))
          /\ top_level_keys content = Some (documented_keys (POST_upload_image image no_form timestamp))).
Proof.
  unfold IntegrationExamples.predict_wildfire_5, IntegrationExamples.upload_image_6,
    raised_by_read_or_open.
  destruct (read image) as [contents | e0] eqn:Hread.
  - rewrite !bind_Ok.
    destruct (Image_open contents) as [image_pil | e0] eqn:Hopen.
    + rewrite !bind_Ok. cbn [no_try].
      split; [| split; [| split; [| split]]].
      * intros e. split; [intros [=] |].
        intros [[=] | (contents' & [= <-] & Hraise)]. congruence.
      * intros e. split; [intros [=] |].
        intros [[=] | (contents' & [= <-] & Hraise)]. congruence.
      * intros status_code detail. split; discriminate.
      * now intros content [= <-].
      * intros content [= <-]. exists contents. repeat split.
    + rewrite !bind_Raise. cbn [no_try].
      split; [| split; [| split; [| split]]].
      * intros e. split.
        -- intros [= <-]. right. exists contents. now split.
        -- intros [[=] | (contents' & [= <-] & Hraise)]. congruence.
      * intros e. split.
        -- intros [= <-]. right. exists contents. now split.
        -- intros [[=] | (contents' & [= <-] & Hraise)]. congruence.
      * intros status_code detail. split; discriminate.
      * intros content [=].
      * intros content [=].
  - rewrite !bind_Raise. cbn [no_try].
    split; [| split; [| split; [| split]]].
    + intros e. split.
      * intros [= <-]. now left.
      * intros [[= <-] | (contents' & [=] & _)]. reflexivity.
    + intros e. split.
      * intros [= <-]. now left.
      * intros [[= <-] | (contents' & [=] & _)]. reflexivity.
    + intros status_code detail. split; discriminate.
    + intros content [=].
    + intros content [=].
Qed.

(** X17: an upload response does not depend on what the image shows: two
    uploads with the same filename and the same number of bytes that both
    decode get the same answer from api_server_template.py and from
    backend_integration_example.py, and from the map example even when the
    numbers of bytes differ. *)
Theorem upload_response_ignores_the_pixels (image1 image2 : UploadFile)
    (contents1 contents2 : list byte) (decoded1 decoded2 : Image)
    (form : UploadForm) (query_timestamp : option string) :
  filename image1 = filename image2 ->
  read image1 = Ok contents1 -> Image_open contents1 = Ok decoded1 ->
  read image2 = Ok contents2 -> Image_open contents2 = Ok decoded2 ->
  BackendMapEndpointsExample.app (POST_upload_image image1 form query_timestamp)
  = BackendMapEndpointsExample.app (POST_upload_image image2 form query_timestamp)
  /\ (len contents1 = len contents2 ->
      ApiServerTemplate.app (POST_upload_image image1 form query_timestamp)
      = ApiServerTemplate.app (POST_upload_image image2 form query_timestamp)
      /\ BackendIntegrationExample.app (POST_upload_image image1 form query_timestamp)
         = BackendIntegrationExample.app (POST_upload_image image2 form query_timestamp)).
Proof.
  intros Hname Hread1 Hopen1 Hread2 Hopen2.
  cbn [ApiServerTemplate.app BackendIntegrationExample.app
       BackendMapEndpointsExample.app].
  unfold_handlers.
  rewrite Hread1, Hread2, !bind_Ok, Hopen1, Hopen2, !bind_Ok, Hname.
  split; [reflexivity |].
  intros ->. split; reflexivity.
Qed.

End BareHandlers.

(** X17, the witness: two PNG uploads of ten bytes under one name. *)
Lemma upload_response_ignores_the_pixels_witness :
  @ApiServerTemplate.app png_only
    (POST_upload_image png_upload ottawa_form None)
  = @ApiServerTemplate.app png_only
      (POST_upload_image
         {| filename := Some "fire.png"; read := Ok (png_signature ++ [xfe; xff])%list |}
         ottawa_form None).
Proof.
  apply (proj2 (@upload_response_ignores_the_pixels png_only png_upload
                  {| filename := Some "fire.png";
                     read := Ok (png_signature ++ [xfe; xff])%list |}
                  _ _ _ _ ottawa_form None eq_refl eq_refl eq_refl eq_refl eq_refl)).
  reflexivity.
Defined.
